(** * SwapDecks marketplace: balance, purchase and payment-webhook handlers

    A shallow embedding of the purchase dialogs
    ([src/components/marketplace/BuyDeckDialog.tsx] and its recharge variant)
    and of the two Stripe route files ([api.js], [src/server/routes/stripe.ts]),
    followed by the properties of the balance/purchase reconciliation
    specification that can be stated over them.

    JavaScript numbers are IEEE-754 binary64 values: they are modelled by
    Rocq's primitive [float], whose operations are the same binary64
    operations with round-to-nearest-even.  Calls that leave the repository
    ([purchaseDeck], [createCreditCheckoutSession], the Stripe SDK) are not
    interpreted: a handler records the call in its list of effects and is
    given the outcome of the call as an argument.  The body parsers of
    Express that the routers mount are modelled by what they leave in
    [req.body]. *)

From Stdlib Require Import ZArith QArith Qround Floats Bool List String Lia Lqa.
From Stdlib Require Uint63.
Import ListNotations.

Local Open Scope string_scope.
Local Open Scope Z_scope.

(* ================================================================== *)
(** * Part I: definitions                                              *)
(* ================================================================== *)

(** ** JavaScript numbers *)

Module Js.

Definition number := float.

(** [!x] on a number: [NaN], [+0] and [-0] are the falsy numbers. *)
Definition falsy (x : number) : bool := is_nan x || is_zero x.

(** The exact rational value of a finite binary64 number
    [(-1)^s * m * 2^e]. *)
Definition SF2Q (x : spec_float) : option Q :=
  match x with
  | S754_zero _ => Some 0%Q
  | S754_finite s m e =>
      let M := cond_Zopp s (Zpos m) in
      Some match e with
           | Zneg k => M # (2 ^ k)%positive
           | _ => inject_Z (M * 2 ^ e)
           end
  | S754_infinity _ | S754_nan => None
  end.

Definition value (x : number) : option Q := SF2Q (Prim2SF x).

(** [x] is finite and its value is the rational [q]. *)
Definition has_value (x : number) (q : Q) : Prop :=
  exists q', value x = Some q' /\ (q' == q)%Q.

(** [Math.round], ECMA-262 21.3.2.28: the integer closest to [x], the one
    nearer to +infinity on a tie, that is the floor of [x + 1/2] computed
    exactly.  The result is given as the integer it denotes ([-0] as [0]);
    [NaN] and the infinities, which [Math.round] returns unchanged, are
    [None]. *)
Definition Math_round (x : number) : option Z :=
  option_map (fun q => Qfloor (q + (1 # 2))) (value x).

(** [x.toFixed(2)], ECMA-262 21.1.3.3, for [x] below 10^21 in magnitude: the
    digits of the integer [n] for which [n / 100] is closest to the exact
    value of [x], the larger one on a tie, after the sign.  The result is
    given as the number of hundredths the text denotes; [None] for [NaN] and
    the infinities. *)
Definition toFixed2 (x : number) : option Z :=
  option_map (fun q => if Qle_bool 0 q
                       then Qfloor (100 * q + (1 # 2))
                       else - Qfloor (100 * - q + (1 # 2)))
             (value x).

End Js.

Set Warnings "-inexact-float".

(** ** Vocabulary shared by the two purchase dialogs *)

(** The outcome of an awaited call: it resolves with a value, or rejects.  A
    rejection carries [error.message] when the thrown value is an [Error]. *)
Inductive Outcome (A : Type) : Type :=
| Resolves (a : A)
| Rejects (message : option string).
Arguments Resolves {A} a.
Arguments Rejects {A} message.

Record User := { uid : string }.

(** The fields of the [deck] prop that the handlers read. *)
Record Deck := { deck_id : string; price : Js.number }.

Inductive Variant := Default | Destructive.

(** A toast description is a fixed text, except for the shortfall message
    "You need $<n> more to purchase this deck. Please refill your balance.",
    which interpolates [deck.price - userBalance]. *)
Inductive Description :=
| Text (s : string)
| NeedMore (shortfall : Js.number).

Record Toast := { title : string; description : Description; variant : Variant }.

(** Calls from a dialog into [@/lib/api]. *)
Inductive Call :=
| PurchaseDeck (userId deckId : string) (amount : Js.number)
| ProcessDeckPurchase (userId deckId : string) (amount : Js.number)
| CreateCreditCheckoutSession (userId : string) (amount : Js.number).

(** The component state ([useState]) together with what the handlers have
    done to the outside: toasts shown, calls issued, [onClose] invocations,
    [console.error] lines and the page location. *)
Record Dialog := {
  userBalance   : Js.number;
  isPurchasing  : bool;
  toasts        : list Toast;
  calls         : list Call;
  onClose_calls : nat;
  console_error : list string;
  location_href : option string
}.

Definition initialDialog : Dialog :=
  {| userBalance := 0%float; isPurchasing := false; toasts := [];
     calls := []; onClose_calls := 0%nat; console_error := [];
     location_href := None |}.

Definition setUserBalance (f : Js.number -> Js.number) (d : Dialog) : Dialog :=
  {| userBalance := f (userBalance d); isPurchasing := isPurchasing d;
     toasts := toasts d; calls := calls d; onClose_calls := onClose_calls d;
     console_error := console_error d; location_href := location_href d |}.

Definition setIsPurchasing (b : bool) (d : Dialog) : Dialog :=
  {| userBalance := userBalance d; isPurchasing := b;
     toasts := toasts d; calls := calls d; onClose_calls := onClose_calls d;
     console_error := console_error d; location_href := location_href d |}.

Definition toast (t : Toast) (d : Dialog) : Dialog :=
  {| userBalance := userBalance d; isPurchasing := isPurchasing d;
     toasts := toasts d ++ [t]; calls := calls d;
     onClose_calls := onClose_calls d; console_error := console_error d;
     location_href := location_href d |}.

Definition call (c : Call) (d : Dialog) : Dialog :=
  {| userBalance := userBalance d; isPurchasing := isPurchasing d;
     toasts := toasts d; calls := calls d ++ [c];
     onClose_calls := onClose_calls d; console_error := console_error d;
     location_href := location_href d |}.

Definition onClose (d : Dialog) : Dialog :=
  {| userBalance := userBalance d; isPurchasing := isPurchasing d;
     toasts := toasts d; calls := calls d;
     onClose_calls := S (onClose_calls d); console_error := console_error d;
     location_href := location_href d |}.

Definition consoleError (label : string) (d : Dialog) : Dialog :=
  {| userBalance := userBalance d; isPurchasing := isPurchasing d;
     toasts := toasts d; calls := calls d; onClose_calls := onClose_calls d;
     console_error := console_error d ++ [label];
     location_href := location_href d |}.

Definition setLocationHref (url : string) (d : Dialog) : Dialog :=
  {| userBalance := userBalance d; isPurchasing := isPurchasing d;
     toasts := toasts d; calls := calls d; onClose_calls := onClose_calls d;
     console_error := console_error d; location_href := Some url |}.

(** [!deck.price || deck.price <= 0] *)
Definition invalidPrice (deck : Deck) : bool :=
  Js.falsy (price deck) || (price deck <=? 0)%float.

(** A handler that reaches an [await] returns the state at that point and
    says what it is suspended on; its continuation runs when the awaited call
    settles, on the state as it is then. *)
Inductive Pending :=
| AwaitPurchase (deck : Deck)   (* inside handlePurchase, at the purchase call *)
| AwaitCheckout.                (* inside handleRecharge, at createCreditCheckoutSession *)

(** ** [BuyDeckDialog.tsx] *)

Module BuyDeckDialog.

(** [handlePurchase] up to its [await].  [userBalance d] is the value the
    rendered closure holds. *)
Definition handlePurchase_begin (user : option User) (deck : Deck)
    (d : Dialog) : Dialog * option Pending :=
  match user with
  | None =>
      (toast {| title := "Sign in required";
                description := Text "Please sign in to purchase this deck";
                variant := Destructive |} d, None)
  | Some u =>
      let d := setIsPurchasing true d in
      if invalidPrice deck then
        (* throw new Error("Invalid price"): catch, then finally *)
        let d := consoleError "Purchase error:" d in
        let d := toast {| title := "Purchase failed";
                          description := Text "There was an error processing your purchase";
                          variant := Destructive |} d in
        (setIsPurchasing false d, None)
      else if (userBalance d <? price deck)%float then
        let d := toast {| title := "Insufficient balance";
                          description := NeedMore (price deck - userBalance d)%float;
                          variant := Destructive |} d in
        (setIsPurchasing false d, None)
      else
        (call (PurchaseDeck (uid u) (deck_id deck) (price deck)) d,
         Some (AwaitPurchase deck))
  end.

(** The rest of [handlePurchase], once [purchaseDeck] has settled. *)
Definition handlePurchase_resume (deck : Deck) (o : Outcome unit)
    (d : Dialog) : Dialog :=
  match o with
  | Resolves _ =>
      let d := toast {| title := "Purchase successful";
                        description := Text "The deck has been added to your library";
                        variant := Default |} d in
      let d := setUserBalance (fun prev => (prev - price deck)%float) d in
      let d := onClose d in
      setIsPurchasing false d
  | Rejects _ =>
      let d := consoleError "Purchase error:" d in
      let d := toast {| title := "Purchase failed";
                        description := Text "There was an error processing your purchase";
                        variant := Destructive |} d in
      setIsPurchasing false d
  end.

(** One whole, uninterrupted run of [handlePurchase]. *)
Definition handlePurchase (user : option User) (deck : Deck)
    (o : Outcome unit) (d : Dialog) : Dialog :=
  match handlePurchase_begin user deck d with
  | (d', Some (AwaitPurchase deck')) => handlePurchase_resume deck' o d'
  | (d', _) => d'
  end.

(** *** The dialog over time

    [handlePurchase] is asynchronous: between its balance check and the
    functional update [setUserBalance(prev => prev - deck.price)] lies the
    [await], and the [useEffect] that loads the balance
    ([loadUserBalance], re-run whenever [isOpen] or [user] changes) may
    resolve in between.  Besides the purchase button the dialog has a
    Cancel button ([onClick={onClose}], disabled like the purchase button
    while [isPurchasing]) and the [Dialog] itself, which calls
    [onOpenChange={onClose}] whenever it is asked to change its open state
    (Escape, a click outside, its close button), purchase in flight or not.
    The operations on a mounted dialog are the five below, and a run is a
    list of them. *)
Inductive Op :=
| Load (balance : Js.number)          (* getUserBalance resolves: setUserBalance(balance) *)
| Click (deck : Deck)                 (* the purchase button, the dialog showing [deck] *)
| PurchaseReturns (o : Outcome unit)  (* the awaited purchaseDeck settles *)
| Cancel                              (* the Cancel button *)
| OpenChange.                         (* the Dialog's onOpenChange *)

Record Session := { dialog : Dialog; awaiting : option Deck }.

Definition initialSession : Session :=
  {| dialog := initialDialog; awaiting := None |}.

Definition step (user : option User) (s : Session) (op : Op) : Session :=
  match op with
  | Load balance =>
      match user with
      | Some _ => {| dialog := setUserBalance (fun _ => balance) (dialog s);
                     awaiting := awaiting s |}
      | None => s
      end
  | Click deck =>
      if isPurchasing (dialog s) then s   (* the button is disabled *)
      else
        match handlePurchase_begin user deck (dialog s) with
        | (d, Some (AwaitPurchase deck')) => {| dialog := d; awaiting := Some deck' |}
        | (d, _) => {| dialog := d; awaiting := awaiting s |}
        end
  | PurchaseReturns o =>
      match awaiting s with
      | Some deck => {| dialog := handlePurchase_resume deck o (dialog s);
                        awaiting := None |}
      | None => s
      end
  | Cancel =>
      if isPurchasing (dialog s) then s   (* the button is disabled *)
      else {| dialog := onClose (dialog s); awaiting := awaiting s |}
  | OpenChange =>
      {| dialog := onClose (dialog s); awaiting := awaiting s |}
  end.

Definition run (user : option User) (ops : list Op) (s : Session) : Session :=
  fold_left (step user) ops s.

(** Operations as a user performs them one after the other: a balance
    refresh (after a top-up, say), or a purchase that runs to completion
    before anything else happens. *)
Inductive SeqOp :=
| Refresh (balance : Js.number)
| Purchase (deck : Deck) (o : Outcome unit).

Definition expand (op : SeqOp) : list Op :=
  match op with
  | Refresh b => [Load b]
  | Purchase deck o => [Click deck; PurchaseReturns o]
  end.

Definition balanceOf (s : Session) : Js.number := userBalance (dialog s).

(** The displayed balance is not negative after any prefix of the run. *)
Definition never_negative (user : option User) (ops : list Op) : Prop :=
  forall n, (balanceOf (run user (firstn n ops) initialSession) <? 0)%float = false.

(** The balances the server reports are not negative. *)
Definition loads_not_negative (ops : list Op) : Prop :=
  forall b, In (Load b) ops -> (b <? 0)%float = false.

Definition refreshes_not_negative (ops : list SeqOp) : Prop :=
  forall b, In (Refresh b) ops -> (b <? 0)%float = false.

(** Between two operations of a sequential run: the balance is not
    negative, no purchase is in flight and the button is enabled. *)
Definition settled (s : Session) : Prop :=
  (balanceOf s <? 0)%float = false /\ awaiting s = None /\
  isPurchasing (dialog s) = false.

End BuyDeckDialog.

(** ** The recharge variant of [BuyDeckDialog] (second component of
       [PurchasedDeckDialog.tsx]) *)

Module BuyDeckDialogRecharge.

(** [handleRecharge] up to its [await]. *)
Definition handleRecharge_begin (user : option User) (deck : Deck)
    (d : Dialog) : Dialog * option Pending :=
  match user with
  | None =>
      (toast {| title := "Sign in required";
                description := Text "Please sign in to recharge your balance";
                variant := Destructive |} d, None)
  | Some u =>
      let amountToRecharge := (price deck - userBalance d)%float in
      (call (CreateCreditCheckoutSession (uid u) amountToRecharge) d,
       Some AwaitCheckout)
  end.

(** [if (url)]: a string is truthy unless it is empty; null is falsy. *)
Definition truthy_url (url : option string) : option string :=
  match url with
  | Some u => if String.eqb u "" then None else Some u
  | None => None
  end.

Definition rechargeFailed (message : option string) (d : Dialog) : Dialog :=
  let d := consoleError "Error during recharge:" d in
  toast {| title := "Recharge failed";
           description := Text match message with
                               | Some m => m
                               | None => "Failed to recharge balance"
                               end;
           variant := Destructive |} d.

(** The rest of [handleRecharge], once [createCreditCheckoutSession] has
    settled. *)
Definition handleRecharge_resume (o : Outcome (option string))
    (d : Dialog) : Dialog :=
  match o with
  | Resolves url =>
      match truthy_url url with
      | Some u => setLocationHref u d
      | None => rechargeFailed (Some "Failed to create checkout session") d
      end
  | Rejects message => rechargeFailed message d
  end.

Definition purchaseFailed (message : option string) (d : Dialog) : Dialog :=
  let d := consoleError "Error during purchase:" d in
  toast {| title := "Purchase failed";
           description := Text match message with
                               | Some m => m
                               | None => "Failed to process purchase"
                               end;
           variant := Destructive |} d.

(** [handlePurchase] up to its [await].  In the insufficient branch
    [handleRecharge()] is started and not awaited: [handlePurchase] returns
    through its [finally] while the recharge is still suspended. *)
Definition handlePurchase_begin (user : option User) (deck : Deck)
    (d : Dialog) : Dialog * option Pending :=
  match user with
  | None =>
      (toast {| title := "Sign in required";
                description := Text "Please sign in to purchase this deck";
                variant := Destructive |} d, None)
  | Some u =>
      let d := setIsPurchasing true d in
      if invalidPrice deck then
        let d := purchaseFailed (Some "Invalid deck price") d in
        (setIsPurchasing false d, None)
      else if (userBalance d <? price deck)%float then
        let (d, pending) := handleRecharge_begin user deck d in
        (setIsPurchasing false d, pending)
      else
        (call (ProcessDeckPurchase (uid u) (deck_id deck) (price deck)) d,
         Some (AwaitPurchase deck))
  end.

(** The rest of [handlePurchase], once [processDeckPurchase] has settled. *)
Definition handlePurchase_resume (deck : Deck) (o : Outcome unit)
    (d : Dialog) : Dialog :=
  match o with
  | Resolves _ =>
      let d := toast {| title := "Purchase successful";
                        description := Text "The deck has been added to your library";
                        variant := Default |} d in
      let d := setUserBalance (fun prev => (prev - price deck)%float) d in
      let d := onClose d in
      setIsPurchasing false d
  | Rejects message =>
      let d := purchaseFailed message d in
      setIsPurchasing false d
  end.

(** One whole, uninterrupted run of [handlePurchase]; [checkout] is the
    outcome of the recharge it may start. *)
Definition handlePurchase (user : option User) (deck : Deck)
    (o : Outcome unit) (checkout : Outcome (option string))
    (d : Dialog) : Dialog :=
  match handlePurchase_begin user deck d with
  | (d', Some (AwaitPurchase deck')) => handlePurchase_resume deck' o d'
  | (d', Some AwaitCheckout) => handleRecharge_resume checkout d'
  | (d', None) => d'
  end.

(** The handler the button is given:
    [onClick={userBalance < deck.price ? handleRecharge : handlePurchase}]. *)
Definition onClick (user : option User) (deck : Deck)
    (d : Dialog) : Dialog * option Pending :=
  if (userBalance d <? price deck)%float
  then handleRecharge_begin user deck d
  else handlePurchase_begin user deck d.

(** A click on the button: it carries [disabled={isPurchasing}], so the
    handler runs only while the flag is off. *)
Definition click (user : option User) (deck : Deck)
    (d : Dialog) : Dialog * option Pending :=
  if isPurchasing d then (d, None) else onClick user deck d.

End BuyDeckDialogRecharge.

(** ** The Stripe routes *)

(** Stripe metadata, and any small JS object read by key: absent keys read
    as [undefined] ([None]). *)
Definition Metadata := list (string * string).

Fixpoint lookup (key : string) (md : Metadata) : option string :=
  match md with
  | [] => None
  | (k, v) :: rest => if String.eqb k key then Some v else lookup key rest
  end.

Record CheckoutSession := {
  session_metadata : option Metadata;     (* Stripe.Metadata | null *)
  amount_total     : option Js.number     (* number | null *)
}.

Record Account := {
  account_id       : string;
  charges_enabled  : bool;
  payouts_enabled  : bool
}.

Inductive EventObject :=
| SessionObject (s : CheckoutSession)
| AccountObject (a : Account)
| OtherObject.

(** What [stripe.webhooks.constructEvent] returns. *)
Record Event := {
  event_id    : string;
  event_type  : string;
  data_object : EventObject
}.

(** [event.data.object.metadata]; [undefined] on objects without it. *)
Definition metadata_of (o : EventObject) : option Metadata :=
  match o with
  | SessionObject s => session_metadata s
  | _ => None
  end.

(** [session.amount_total / 100]; [null / 100] and [undefined / 100] are [0]
    and [NaN]. *)
Definition amount_of (o : EventObject) : Js.number :=
  match o with
  | SessionObject s =>
      match amount_total s with
      | Some a => (a / 100)%float
      | None => (0 / 100)%float
      end
  | _ => nan
  end.

(** The parameters of [stripe.checkout.sessions.create] that depend on the
    request; [payment_method_types], [success_url] and [cancel_url] are
    constants of the deployment. *)
Record CheckoutParams := {
  currency     : string;
  product_name : string;
  unit_amount  : option Z;      (* the result of Math.round *)
  quantity     : Z;
  mode         : string;
  metadata     : Metadata
}.

Record TransferParams := {
  transfer_amount      : option Z;   (* the result of Math.round *)
  transfer_currency    : string;
  destination          : string;
  transfer_description : string
}.

Inductive LogLine :=
| CheckoutComplete (userId type : option string) (amount : Js.number)
| AccountUpdated (a : option Account)
| UnhandledEventType (type : string)
| ProcessedPurchase (deckId userId : option string).

(** What a route handler does besides answering. *)
Inductive Effect :=
| ConsoleLog (line : LogLine)
| ConsoleError (label : string)
| CallPurchaseDeck (userId deckId : option string)   (* purchaseDeck of ../lib/api/decks *)
| StripeCheckoutSessionsCreate (params : CheckoutParams)
| StripeTransfersCreate (params : TransferParams).

Inductive Body :=
| Send (text : string)
| JsonReceived                         (* { received: true } *)
| JsonError (message : option string)  (* { error: ... } *)
| JsonUrl (url : option string)        (* { url: session.url } *)
| JsonTransfer (transfer : string)     (* { success: true, transfer } *)
| ErrorPage.                           (* written by Express's error handling *)

Record Response := { status : Z; body : Body }.

Record Handled := { effects : list Effect; response : Response }.

Unset Elimination Schemes.
(** A value of [JSON.parse]. *)
Inductive Json :=
| JNull
| JBool (b : bool)
| JNumber (x : Js.number)
| JString (s : string)
| JArray (items : list Json)
| JObject (members : list (string * Json)).
Set Elimination Schemes.

(** [req.body], as the body parsers of Express leave it. *)
Inductive ReqBody :=
| Unread                    (* no parser has taken the request *)
| Buffer (bytes : string)   (* express.raw: the bytes as they were received *)
| Parsed (value : Json).    (* express.json: the value of JSON.parse *)

(** A request to [POST /webhook].  [raw_body] holds the bytes of the body as
    they were received; [json_content_type] says whether the request has a
    body and a [Content-Type] that the parsers mounted for
    ["application/json"] take; [req_body] is [req.body], which the body
    parsers set and the route handler reads.  Requests are taken to be within
    the parsers' size limit and in an encoding they accept. *)
Record Request := {
  json_content_type : bool;
  raw_body          : string;
  stripe_signature  : option string;   (* req.headers["stripe-signature"] *)
  req_body          : ReqBody
}.

Definition set_req_body (b : ReqBody) (req : Request) : Request :=
  {| json_content_type := json_content_type req; raw_body := raw_body req;
     stripe_signature := stripe_signature req; req_body := b |}.

(** [express.json()].  A request that an earlier parser has read, and one
    that is not JSON, is passed on as it is.  Otherwise the body is read and
    parsed: [req.body] becomes the parsed value, or, when [parse] throws, the
    error is handed to Express ([next(err)], status 400) and no later handler
    of the router runs.  [parse] is the parser's own parse step: [JSON.parse]
    under its strict option, [None] when it throws. *)
Definition express_json (parse : string -> option Json) (req : Request)
    : Request + Response :=
  match req_body req with
  | Unread =>
      if json_content_type req then
        match parse (raw_body req) with
        | Some value => inl (set_req_body (Parsed value) req)
        | None => inr {| status := 400; body := ErrorPage |}
        end
      else inl req
  | _ => inl req
  end.

(** [express.raw({ type: "application/json" })]: the same, except that
    [req.body] becomes a [Buffer] of the bytes, unparsed. *)
Definition express_raw (req : Request) : Request :=
  match req_body req with
  | Unread =>
      if json_content_type req then set_req_body (Buffer (raw_body req)) req
      else req
  | _ => req
  end.

(** The effects that change something outside the handler: the database
    update behind [purchaseDeck] and the objects created at Stripe.  Console
    output is not one. *)
Definition is_mutation (e : Effect) : bool :=
  match e with
  | CallPurchaseDeck _ _ | StripeCheckoutSessionsCreate _ | StripeTransfersCreate _ => true
  | ConsoleLog _ | ConsoleError _ => false
  end.

Definition mutations (h : Handled) : list Effect := filter is_mutation (effects h).

(** The message of the [TypeError] thrown when [session.metadata] is
    destructured and is [null] (a session without metadata) or [undefined]
    (an object without that key), in the words of V8. *)
Definition TypeError_message (o : EventObject) : option string :=
  Some match o with
       | SessionObject _ =>
           "Cannot destructure property 'userId' of 'session.metadata' as it is null."
       | _ =>
           "Cannot destructure property 'userId' of 'session.metadata' as it is undefined."
       end.

(** The amounts a handler submits to Stripe, in minor units. *)
Definition submitted_amounts (h : Handled) : list (option Z) :=
  flat_map (fun e => match e with
                     | StripeCheckoutSessionsCreate p => [unit_amount p]
                     | StripeTransfersCreate p => [transfer_amount p]
                     | _ => []
                     end) (effects h).

(** [res.json(...)] answers with status 200. *)
Definition json (b : Body) : Response := {| status := 200; body := b |}.

(** *** [api.js] *)

Module ApiJs.

(** The share of a sale transferred to the seller. *)
Definition sellerAmount (amount : Js.number) : option Z :=
  Js.Math_round (amount * 0.9 * 100)%float.

(** [POST /create-checkout-session]; [created] is the outcome of
    [stripe.checkout.sessions.create], resolving with [session.url]. *)
Definition create_checkout_session (userId : string) (amount : Js.number)
    (created : Outcome (option string)) : Handled :=
  let params :=
    {| currency := "eur";
       product_name := "Add Credits to your balance";
       unit_amount := Js.Math_round (amount * 100)%float;
       quantity := 1;
       mode := "payment";
       metadata := [("userId", userId); ("type", "recharge")] |} in
  match created with
  | Resolves url =>
      {| effects := [StripeCheckoutSessionsCreate params];
         response := json (JsonUrl url) |}
  | Rejects message =>
      {| effects := [StripeCheckoutSessionsCreate params;
                     ConsoleError "Error creating checkout session:"];
         response := {| status := 500; body := JsonError message |} |}
  end.

(** [POST /process-purchase]; [transferred] is the outcome of
    [stripe.transfers.create]. *)
Definition process_purchase (amount : Js.number) (accountId : string)
    (transferred : Outcome string) : Handled :=
  let params :=
    {| transfer_amount := sellerAmount amount;
       transfer_currency := "eur";
       destination := accountId;
       transfer_description := "Product sale TEST STRIPE" |} in
  match transferred with
  | Resolves transfer =>
      {| effects := [StripeTransfersCreate params];
         response := json (JsonTransfer transfer) |}
  | Rejects message =>
      {| effects := [StripeTransfersCreate params;
                     ConsoleError "Error processing purchase:"];
         response := {| status := 500; body := JsonError message |} |}
  end.

Section Webhook.

(** [stripe.webhooks.constructEvent(req.body, sig, secret)]: the verified
    event, or the message of the error it throws. *)
Variable constructEvent : ReqBody -> option string -> string -> Event + string.
Variable STRIPE_WEBHOOK_SECRET : string.

(** The [switch (event.type)] of the handler, inside its [try]. *)
Definition handle_event (event : Event) : Handled :=
  if String.eqb (event_type event) "checkout.session.completed" then
    match metadata_of (data_object event) with
    | Some md =>
        let userId := lookup "userId" md in
        let type := lookup "type" md in
        let amount := amount_of (data_object event) in
        {| effects := [ConsoleLog (CheckoutComplete userId type amount)];
           response := json JsonReceived |}
    | None =>
        (* destructuring null throws a TypeError *)
        {| effects := [ConsoleError "Error processing webhook:"];
           response := {| status := 500;
                          body := JsonError (TypeError_message (data_object event)) |} |}
    end
  else if String.eqb (event_type event) "account.updated" then
    let account := match data_object event with
                   | AccountObject a => Some a
                   | _ => None
                   end in
    {| effects := [ConsoleLog (AccountUpdated account)];
       response := json JsonReceived |}
  else
    {| effects := [ConsoleLog (UnhandledEventType (event_type event))];
       response := json JsonReceived |}.

(** The handler of [POST /webhook] (lines 134-179), given the request as
    the middleware before it has left it. *)
Definition webhook (req : Request) : Handled :=
  match constructEvent (req_body req) (stripe_signature req) STRIPE_WEBHOOK_SECRET with
  | inr message =>
      {| effects := [ConsoleError "Webhook signature verification failed:"];
         response := {| status := 400;
                        body := Send ("Webhook Error: " ++ message) |} |}
  | inl event => handle_event event
  end.

(** The same request delivered [n] times. *)
Definition deliver (req : Request) (n : nat) : list Handled :=
  repeat (webhook req) n.

(** [JSON.parse] as [express.json()] applies it. *)
Variable JSON_parse : string -> option Json.

(** [POST /webhook] as the router serves it: [router.use(express.json())]
    (line 6) runs on every request of the router, then the route's own
    [express.raw] (line 133), then the handler. *)
Definition route_webhook (req : Request) : Handled :=
  match express_json JSON_parse req with
  | inr refused => {| effects := []; response := refused |}
  | inl parsed => webhook (express_raw parsed)
  end.

End Webhook.

End ApiJs.

(** *** [src/server/routes/stripe.ts] *)

Module StripeTs.

(** [POST /create-checkout-session] *)
Definition create_checkout_session (deckId userId deckTitle : string)
    (price : Js.number) (created : Outcome (option string)) : Handled :=
  let params :=
    {| currency := "usd";
       product_name := deckTitle;
       unit_amount := Js.Math_round (price * 100)%float;
       quantity := 1;
       mode := "payment";
       metadata := [("deckId", deckId); ("userId", userId)] |} in
  match created with
  | Resolves url =>
      {| effects := [StripeCheckoutSessionsCreate params];
         response := json (JsonUrl url) |}
  | Rejects _ =>
      {| effects := [StripeCheckoutSessionsCreate params;
                     ConsoleError "Error creating checkout session:"];
         response := {| status := 500;
                        body := JsonError (Some "Failed to create checkout session") |} |}
  end.

Section Webhook.

Variable constructEvent : ReqBody -> option string -> string -> Event + string.
Variable STRIPE_WEBHOOK_SECRET : string.

(** The handling of a verified event; [purchased] is the outcome of the
    awaited [purchaseDeck(userId, deckId)]. *)
Definition handle_event (event : Event) (purchased : Outcome unit) : Handled :=
  if String.eqb (event_type event) "checkout.session.completed" then
    match metadata_of (data_object event) with
    | Some md =>
        let deckId := lookup "deckId" md in
        let userId := lookup "userId" md in
        match purchased with
        | Resolves _ =>
            {| effects := [CallPurchaseDeck userId deckId;
                           ConsoleLog (ProcessedPurchase deckId userId)];
               response := json JsonReceived |}
        | Rejects _ =>
            {| effects := [CallPurchaseDeck userId deckId;
                           ConsoleError "Error processing purchase:"];
               response := {| status := 500;
                              body := Send "Failed to process purchase" |} |}
        end
    | None =>
        (* destructuring null throws inside the try *)
        {| effects := [ConsoleError "Error processing purchase:"];
           response := {| status := 500;
                          body := Send "Failed to process purchase" |} |}
    end
  else
    {| effects := []; response := json JsonReceived |}.

(** The handler of [POST /webhook] (lines 53-90), given the request as the
    middleware before it has left it. *)
Definition webhook (req : Request) (purchased : Outcome unit) : Handled :=
  match constructEvent (req_body req) (stripe_signature req) STRIPE_WEBHOOK_SECRET with
  | inr message =>
      {| effects := [ConsoleError "Webhook signature verification failed:"];
         response := {| status := 400;
                        body := Send ("Webhook Error: " ++ message) |} |}
  | inl event => handle_event event purchased
  end.

(** The same request delivered once per element of [outcomes], the
    outcome of the [purchaseDeck] call of each delivery. *)
Definition deliver (req : Request) (outcomes : list (Outcome unit)) : list Handled :=
  map (webhook req) outcomes.

(** [POST /webhook] as the router serves it: the route's [express.raw]
    (line 52), then the handler.  The router mounts no parser of its own. *)
Definition route_webhook (req : Request) (purchased : Outcome unit) : Handled :=
  webhook (express_raw req) purchased.

End Webhook.

End StripeTs.



(** The answer of both webhook handlers to a request that fails
    verification with [message]. *)
Definition rejection (message : string) : Handled :=
  {| effects := [ConsoleError "Webhook signature verification failed:"];
     response := {| status := 400; body := Send ("Webhook Error: " ++ message) |} |}.

(** ** Data the examples below are run on *)




(** A purchase request that goes through, in both dialogs: the purchase
    call is issued for the user, the deck and its price, the handler waits
    for it with the buttons disabled, and nothing else is called.  When the
    call resolves, success is reported, the price is debited from the
    displayed balance and the dialog closes; when it rejects, "Purchase
    failed" is reported and the balance is kept. *)
Definition purchase_goes_through (u : User) (deck : Deck) (d : Dialog) : Prop :=
  BuyDeckDialog.handlePurchase_begin (Some u) deck d
  = (call (PurchaseDeck (uid u) (deck_id deck) (price deck)) (setIsPurchasing true d),
     Some (AwaitPurchase deck)) /\
  BuyDeckDialogRecharge.handlePurchase_begin (Some u) deck d
  = (call (ProcessDeckPurchase (uid u) (deck_id deck) (price deck)) (setIsPurchasing true d),
     Some (AwaitPurchase deck)) /\
  (isPurchasing d = false ->
   BuyDeckDialogRecharge.click (Some u) deck d
   = BuyDeckDialogRecharge.handlePurchase_begin (Some u) deck d) /\
  (forall o,
      let d' := BuyDeckDialog.handlePurchase (Some u) deck o d in
      calls d' = (calls d ++ [PurchaseDeck (uid u) (deck_id deck) (price deck)])%list /\
      isPurchasing d' = false /\ location_href d' = location_href d /\
      match o with
      | Resolves _ =>
          map title (toasts d') = (map title (toasts d) ++ ["Purchase successful"])%list /\
          userBalance d' = (userBalance d - price deck)%float /\
          onClose_calls d' = S (onClose_calls d)
      | Rejects _ =>
          map title (toasts d') = (map title (toasts d) ++ ["Purchase failed"])%list /\
          userBalance d' = userBalance d /\
          onClose_calls d' = onClose_calls d
      end) /\
  (forall o checkout,
      let d' := BuyDeckDialogRecharge.handlePurchase (Some u) deck o checkout d in
      calls d' = (calls d ++ [ProcessDeckPurchase (uid u) (deck_id deck) (price deck)])%list /\
      isPurchasing d' = false /\ location_href d' = location_href d /\
      match o with
      | Resolves _ =>
          map title (toasts d') = (map title (toasts d) ++ ["Purchase successful"])%list /\
          userBalance d' = (userBalance d - price deck)%float /\
          onClose_calls d' = S (onClose_calls d)
      | Rejects _ =>
          map title (toasts d') = (map title (toasts d) ++ ["Purchase failed"])%list /\
          userBalance d' = userBalance d /\
          onClose_calls d' = onClose_calls d
      end).

(** A purchase request that is blocked: no purchase call is issued, whatever
    the outcome a call would have had, and the balance, the count of
    [onClose] calls and the flag are as before.  [BuyDeckDialog.tsx] shows
    the "Insufficient balance" toast with the shortfall; the recharge variant,
    from its enabled button as from [handlePurchase], requests a checkout
    session for the shortfall, and redirects to the URL it resolves with. *)
Definition purchase_is_blocked (u : User) (deck : Deck) (d : Dialog) : Prop :=
  (forall o,
      let d' := BuyDeckDialog.handlePurchase (Some u) deck o d in
      calls d' = calls d /\
      toasts d' = (toasts d ++ [{| title := "Insufficient balance";
                                   description := NeedMore (price deck - userBalance d)%float;
                                   variant := Destructive |}])%list /\
      userBalance d' = userBalance d /\ onClose_calls d' = onClose_calls d /\
      isPurchasing d' = false) /\
  (isPurchasing d = false ->
   BuyDeckDialogRecharge.click (Some u) deck d
   = (call (CreateCreditCheckoutSession (uid u) (price deck - userBalance d)%float) d,
      Some AwaitCheckout)) /\
  (forall o checkout,
      let d' := BuyDeckDialogRecharge.handlePurchase (Some u) deck o checkout d in
      calls d' = (calls d ++ [CreateCreditCheckoutSession (uid u)
                                (price deck - userBalance d)%float])%list /\
      userBalance d' = userBalance d /\ onClose_calls d' = onClose_calls d /\
      isPurchasing d' = false /\
      (forall url, checkout = Resolves (Some url) -> url <> "" ->
                   location_href d' = Some url /\ toasts d' = toasts d)).

Definition alice : User := {| uid := "alice" |}.

(** A deck priced 9.99. *)
Definition deck999 : Deck := {| deck_id := "deck-1"; price := 9.99%float |}.

Definition deck10 : Deck := {| deck_id := "deck-1"; price := 10%float |}.

Definition withBalance (b : Js.number) : Dialog :=
  setUserBalance (fun _ => b) initialDialog.

(** A completed checkout of the recharge kind ([api.js] metadata). *)
Definition rechargeEvent : Event :=
  {| event_id := "evt_1";
     event_type := "checkout.session.completed";
     data_object :=
       SessionObject {| session_metadata := Some [("userId", "alice"); ("type", "recharge")];
                        amount_total := Some 20000%float |} |}.

(** A completed checkout of a deck ([stripe.ts] metadata). *)
Definition deckEvent : Event :=
  {| event_id := "evt_2";
     event_type := "checkout.session.completed";
     data_object :=
       SessionObject {| session_metadata := Some [("deckId", "deck-1"); ("userId", "alice")];
                        amount_total := Some 1000%float |} |}.

(** A stand-in for signature verification: the header must equal the secret. *)
Definition verifyWith (event : Event) (body : ReqBody) (sig : option string)
    (secret : string) : Event + string :=
  match sig with
  | Some s => if String.eqb s secret then inl event
              else inr "No signatures found matching the expected signature for payload"
  | None => inr "No stripe-signature header value was provided"
  end.




Definition signedRequest : Request :=
  {| json_content_type := true; raw_body := "{}";
     stripe_signature := Some "whsec"; req_body := Buffer "{}" |}.

Definition forgedRequest : Request :=
  {| json_content_type := true; raw_body := "{}";
     stripe_signature := Some "forged"; req_body := Buffer "{}" |}.

(** ** Further code of the repository *)

(** The toasts of a dialog that report a successful purchase. *)
Definition is_success (t : Toast) : bool :=
  String.eqb (title t) "Purchase successful".

Definition successes (d : Dialog) : nat :=
  List.length (filter is_success (toasts d)).

(** A purchase call made for the signed-in user, with the id and the price
    of a deck whose price passes [!price || price <= 0]. *)
Definition valid_call (user : option User) (c : Call) : Prop :=
  exists u deck, user = Some u /\ invalidPrice deck = false /\
                 c = PurchaseDeck (uid u) (deck_id deck) (price deck).

(** The number of clicks on the purchase button in a run. *)
Definition clicks (ops : list BuyDeckDialog.Op) : nat :=
  List.length (filter (fun op => match op with
                                 | BuyDeckDialog.Click _ => true
                                 | _ => false
                                 end) ops).

(** The clicks on the Cancel button in a run, and the times the [Dialog]
    asked to change its open state. *)
Definition cancels (ops : list BuyDeckDialog.Op) : nat :=
  List.length (filter (fun op => match op with
                                 | BuyDeckDialog.Cancel => true
                                 | _ => false
                                 end) ops).

Definition open_changes (ops : list BuyDeckDialog.Op) : nat :=
  List.length (filter (fun op => match op with
                                 | BuyDeckDialog.OpenChange => true
                                 | _ => false
                                 end) ops).

(** The number an amount of [k] whole cents is as a JavaScript number: the
    binary64 number nearest to [k / 100], which is what the decimal notation
    with two decimals is read as. *)
Definition of_cents (k : Z) : Js.number :=
  (of_uint63 (Uint63.of_Z k) / 100)%float.

(** [P] holds of the [fuel] integers from [k] on. *)
Fixpoint all_from (fuel : nat) (k : Z) (P : Z -> bool) : bool :=
  match fuel with
  | O => true
  | S fuel' => if P k then all_from fuel' (k + 1) P else false
  end.

(** [Math.round(amount * 100)] gives back the [k] cents of [of_cents k]. *)
Definition cents_exact (k : Z) : bool :=
  match Js.Math_round (of_cents k * 100)%float with
  | Some n => n =? k
  | None => false
  end.

(** The seller's share of a price of [k] cents is within half a cent of
    nine tenths of it, between 0 and [k], and exactly nine tenths when [k] is
    a multiple of ten. *)
Definition seller_share_ok (k : Z) : bool :=
  match ApiJs.sellerAmount (of_cents k) with
  | Some n => (Z.abs (10 * n - 9 * k) <=? 5) && (0 <=? n) && (n <=? k)
              && (if k mod 10 =? 0 then 10 * n =? 9 * k else true)
  | None => false
  end.

(** *** [api.js], [POST /create-payout] *)

Module ApiJsPayout.

Record PayoutParams := {
  payout_amount   : option Z;   (* the result of Math.round *)
  payout_currency : string;
  stripeAccount   : string
}.

Inductive PayoutBody :=
| JsonPayout (payout : string)             (* { success: true, payout } *)
| JsonPayoutError (message : option string).

Record PayoutHandled := {
  payout_request : PayoutParams;           (* stripe.payouts.create *)
  payout_console : list string;
  payout_status  : Z;
  payout_body    : PayoutBody
}.

(** [created] is the outcome of [stripe.payouts.create]. *)
Definition create_payout (amount : Js.number) (accountId : string)
    (created : Outcome string) : PayoutHandled :=
  let params :=
    {| payout_amount := Js.Math_round (amount * 100)%float;
       payout_currency := "eur";
       stripeAccount := accountId |} in
  match created with
  | Resolves payout =>
      {| payout_request := params; payout_console := [];
         payout_status := 200; payout_body := JsonPayout payout |}
  | Rejects message =>
      {| payout_request := params;
         payout_console := ["Error creating payout:"];
         payout_status := 500; payout_body := JsonPayoutError message |}
  end.

End ApiJsPayout.

(** *** [CreatorProfile.tsx] *)

Module CreatorProfile.

Record Creator := {
  creator_id : string;
  username   : string;
  avatar_url : option string
}.

(** A row of the [decks] table as [select("*")] returns it, its columns by
    name. *)
Definition DeckRow := list (string * string).

(** [{...deck, creatorName, creatorAvatar, profiles: {username, avatar_url}}]:
    the columns of the row, and the three properties written over them. *)
Record DeckWithProfile := {
  row           : DeckRow;
  creatorName   : string;
  creatorAvatar : option string;
  profiles      : string * option string
}.

(** What a supabase query resolves with: [{data, error: null}] or
    [{data: null, error}]. *)
Inductive Result (A : Type) : Type :=
| Data (data : A)
| Failed (error : string).
Arguments Data {A} data.
Arguments Failed {A} error.

Inductive Query :=
| SelectProfile (id : string)           (* from("profiles")...eq("id", id).single() *)
| SelectDecks (creatorid : string).     (* from("decks")...eq("creatorid", id).order(...) *)

Record State := {
  creator   : option Creator;
  decks     : list DeckWithProfile;
  isLoading : bool;
  queries   : list Query;
  logged    : list string
}.

(** [useState(null)], [useState([])], [useState(true)]. *)
Definition initialState : State :=
  {| creator := None; decks := []; isLoading := true; queries := []; logged := [] |}.

Definition setIsLoading (b : bool) (st : State) : State :=
  {| creator := creator st; decks := decks st; isLoading := b;
     queries := queries st; logged := logged st |}.

Definition issue (q : Query) (st : State) : State :=
  {| creator := creator st; decks := decks st; isLoading := isLoading st;
     queries := queries st ++ [q]; logged := logged st |}.

Definition setCreatorAndDecks (c : Creator) (ds : list DeckWithProfile)
    (st : State) : State :=
  {| creator := Some c; decks := ds; isLoading := isLoading st;
     queries := queries st; logged := logged st |}.

(** The [catch] and the [finally] of [fetchCreatorData]. *)
Definition fetchFailed (st : State) : State :=
  setIsLoading false
    {| creator := creator st; decks := decks st; isLoading := isLoading st;
       queries := queries st;
       logged := logged st ++ ["Error fetching creator data:"] |}.

Definition withCreator (c : Creator) (deck : DeckRow) : DeckWithProfile :=
  {| row := deck; creatorName := username c; creatorAvatar := avatar_url c;
     profiles := (username c, avatar_url c) |}.

(** [if (!creatorId)]: the route parameter is undefined or empty. *)
Definition truthy_id (creatorId : option string) : option string :=
  match creatorId with
  | Some id => if String.eqb id "" then None else Some id
  | None => None
  end.

(** [fetchCreatorData], run by the effect on [creatorId]; [profile] and
    [rows] are the outcomes of the two awaited queries. *)
Definition fetchCreatorData (creatorId : option string)
    (profile : Outcome (Result Creator))
    (rows : Outcome (Result (list DeckRow))) (st : State) : State :=
  match truthy_id creatorId with
  | None => st
  | Some id =>
      let st := setIsLoading true st in
      let st := issue (SelectProfile id) st in
      match profile with
      | Resolves (Data creatorData) =>
          let st := issue (SelectDecks id) st in
          match rows with
          | Resolves (Data decksData) =>
              let decksWithCreator := map (withCreator creatorData) decksData in
              setIsLoading false (setCreatorAndDecks creatorData decksWithCreator st)
          | _ => fetchFailed st      (* throw decksError, or the await rejects *)
          end
      | _ => fetchFailed st          (* throw creatorError, or the await rejects *)
      end
  end.

(** Which of the three screens is rendered; of the profile page, the name,
    the avatar, the number in "<n> decks created" and the grid of cards, or
    [None] for "No decks created yet".  The avatar fallback is left out. *)
Inductive View :=
| Spinner
| CreatorNotFound
| ProfilePage (name : string) (avatar : option string) (count : nat)
              (grid : option (list DeckWithProfile)).

Definition render (st : State) : View :=
  if isLoading st then Spinner
  else match creator st with
       | None => CreatorNotFound
       | Some c =>
           ProfilePage (username c) (avatar_url c) (List.length (decks st))
             match decks st with
             | [] => None
             | ds => Some ds
             end
       end.

(** One run of the effect, with the outcomes of its queries. *)
Record Fetch := {
  fetch_id      : option string;
  fetch_profile : Outcome (Result Creator);
  fetch_rows    : Outcome (Result (list DeckRow))
}.

Definition run (fetches : list Fetch) (st : State) : State :=
  fold_left (fun st f => fetchCreatorData (fetch_id f) (fetch_profile f) (fetch_rows f) st)
            fetches st.

(** The cards shown are those of the creator shown. *)
Definition consistent (st : State) : Prop :=
  match creator st with
  | None => decks st = []
  | Some c => Forall (fun d => creatorName d = username c /\
                               creatorAvatar d = avatar_url c /\
                               profiles d = (username c, avatar_url c)) (decks st)
  end.

End CreatorProfile.

(** *** The flashcard loaders of [BuyDeckDialog.tsx] and [PurchasedDeckDialog.tsx] *)

(** The cards, by id. *)
Definition FlashCard := string.

(** The fields of the [deck] prop that the loaders read. *)
Record DeckRef := { ref_id : string; creatorid : option string }.

(** The state the loaders work on, with the fetches still in flight and what
    was done to the outside. *)
Record Preview := {
  selectedTab    : string;
  flashcards     : list FlashCard;
  isLoadingCards : bool;
  inFlight       : nat;
  getFlashcards  : list (string * string);   (* the calls, (deck.id, deck.creatorid) *)
  preview_toasts : list Toast;
  preview_logged : list string
}.

Definition initialPreview : Preview :=
  {| selectedTab := "overview"; flashcards := []; isLoadingCards := false;
     inFlight := 0%nat; getFlashcards := []; preview_toasts := [];
     preview_logged := [] |}.

Definition setSelectedTab (tab : string) (p : Preview) : Preview :=
  {| selectedTab := tab; flashcards := flashcards p;
     isLoadingCards := isLoadingCards p; inFlight := inFlight p;
     getFlashcards := getFlashcards p; preview_toasts := preview_toasts p;
     preview_logged := preview_logged p |}.

(** [setIsLoading(true)] followed by the call of [getFlashcards]. *)
Definition startFetch (deckId creatorId : string) (p : Preview) : Preview :=
  {| selectedTab := selectedTab p; flashcards := flashcards p;
     isLoadingCards := true; inFlight := S (inFlight p);
     getFlashcards := getFlashcards p ++ [(deckId, creatorId)];
     preview_toasts := preview_toasts p; preview_logged := preview_logged p |}.

(** [deck.creatorid] as a condition. *)
Definition truthy_creatorid (deck : DeckRef) : option string :=
  match creatorid deck with
  | Some c => if String.eqb c "" then None else Some c
  | None => None
  end.

Inductive PreviewOp :=
| SelectTab (tab : string)                    (* onValueChange={setSelectedTab} *)
| RunEffect (isOpen : bool) (deck : DeckRef)  (* the effect, after its dependencies changed *)
| Settles (o : Outcome (list FlashCard)).     (* an awaited getFlashcards settles *)

Module BuyDeckPreview.

(** The effect of [BuyDeckDialog.tsx] up to the [await]. *)
Definition effect (isOpen : bool) (deck : DeckRef) (p : Preview) : Preview :=
  if isOpen && String.eqb (selectedTab p) "preview" then
    (* loadFlashcards() *)
    if String.eqb (selectedTab p) "preview" then
      match truthy_creatorid deck with
      | Some c => startFetch (ref_id deck) c p
      | None => p
      end
    else p
  else p.

(** The rest of [loadFlashcards], once [getFlashcards] has settled. *)
Definition settle (o : Outcome (list FlashCard)) (p : Preview) : Preview :=
  match o with
  | Resolves cards =>
      {| selectedTab := selectedTab p; flashcards := cards;
         isLoadingCards := false; inFlight := pred (inFlight p);
         getFlashcards := getFlashcards p; preview_toasts := preview_toasts p;
         preview_logged := preview_logged p |}
  | Rejects _ =>
      {| selectedTab := selectedTab p; flashcards := flashcards p;
         isLoadingCards := false; inFlight := pred (inFlight p);
         getFlashcards := getFlashcards p;
         preview_toasts := preview_toasts p
                           ++ [{| title := "Error";
                                  description := Text "Failed to load flashcards preview";
                                  variant := Destructive |}];
         preview_logged := preview_logged p ++ ["Error loading flashcards:"] |}
  end.

Definition step (p : Preview) (op : PreviewOp) : Preview :=
  match op with
  | SelectTab tab => setSelectedTab tab p
  | RunEffect isOpen deck => effect isOpen deck p
  | Settles o => match inFlight p with
                 | O => p
                 | S _ => settle o p
                 end
  end.

Definition run (ops : list PreviewOp) (p : Preview) : Preview :=
  fold_left step ops p.

End BuyDeckPreview.

Module PurchasedDeckDialog.

(** The effect of [PurchasedDeckDialog] up to the [await]: it does not
    depend on [isOpen]. *)
Definition effect (isOpen : bool) (deck : DeckRef) (p : Preview) : Preview :=
  if String.eqb (selectedTab p) "flashcards" then
    match truthy_creatorid deck with
    | Some c => startFetch (ref_id deck) c p
    | None => p
    end
  else p.

(** The rest of [loadFlashcards], once [getFlashcards] has settled. *)
Definition settle (o : Outcome (list FlashCard)) (p : Preview) : Preview :=
  match o with
  | Resolves cards =>
      {| selectedTab := selectedTab p; flashcards := cards;
         isLoadingCards := false; inFlight := pred (inFlight p);
         getFlashcards := getFlashcards p; preview_toasts := preview_toasts p;
         preview_logged := preview_logged p |}
  | Rejects _ =>
      {| selectedTab := selectedTab p; flashcards := flashcards p;
         isLoadingCards := false; inFlight := pred (inFlight p);
         getFlashcards := getFlashcards p; preview_toasts := preview_toasts p;
         preview_logged := preview_logged p ++ ["Error loading flashcards:"] |}
  end.

Definition step (p : Preview) (op : PreviewOp) : Preview :=
  match op with
  | SelectTab tab => setSelectedTab tab p
  | RunEffect isOpen deck => effect isOpen deck p
  | Settles o => match inFlight p with
                 | O => p
                 | S _ => settle o p
                 end
  end.

Definition run (ops : list PreviewOp) (p : Preview) : Preview :=
  fold_left step ops p.

End PurchasedDeckDialog.

(** The rejected settlements of a run that found a fetch in flight are the
    ones that can raise a toast; the number of [Settles] that reject bounds
    them. *)
Definition rejections (ops : list PreviewOp) : nat :=
  List.length (filter (fun op => match op with
                                 | Settles (Rejects _) => true
                                 | _ => false
                                 end) ops).

(* ================================================================== *)
(** * Part II: properties                                              *)
(* ================================================================== *)

(** ** Facts about binary64 numbers *)

Section NumberFacts.

Local Open Scope float_scope.

Lemma SFcompare_refl (x : spec_float) :
  SFcompare x x = None \/ SFcompare x x = Some Eq.
Proof.
  destruct x as [s|s| |s m e]; simpl; auto.
  - destruct s; auto.
  - right. destruct s; rewrite Z.compare_refl, Pos.compare_cont_refl; reflexivity.
Qed.

(** [x < x] is false for every number, [NaN] included. *)
Lemma ltb_irrefl (x : float) : (x <? x) = false.
Proof.
  rewrite ltb_spec. unfold SFltb.
  destruct (SFcompare_refl (Prim2SF x)) as [H|H]; rewrite H; reflexivity.
Qed.

Lemma Prim2SF_zero : Prim2SF 0 = S754_zero false.
Proof. reflexivity. Qed.

(** A price that passes [!price || price <= 0] is positive. *)
Lemma valid_price_positive (deck : Deck) :
  invalidPrice deck = false -> (0 <? price deck) = true.
Proof.
  unfold invalidPrice, Js.falsy, is_nan. intros H.
  apply orb_false_iff in H. destruct H as [H L].
  apply orb_false_iff in H. destruct H as [N _].
  revert N L. rewrite FloatAxioms.eqb_spec, leb_spec, ltb_spec, Prim2SF_zero.
  unfold SFeqb, SFleb, SFltb.
  destruct (Prim2SF (price deck)) as [s|s| |s m e]; simpl;
    try destruct s; simpl; congruence.
Qed.

Lemma digits2_pos_bounds (m : positive) :
  (2 ^ (Zpos (digits2_pos m) - 1) <= Zpos m < 2 ^ Zpos (digits2_pos m))%Z.
Proof.
  induction m as [m IH|m IH|]; simpl digits2_pos.
  - rewrite Pos2Z.inj_succ.
    replace (Z.succ (Zpos (digits2_pos m)) - 1)%Z
      with (Z.succ (Zpos (digits2_pos m) - 1)) by lia.
    rewrite !Z.pow_succ_r by lia. lia.
  - rewrite Pos2Z.inj_succ.
    replace (Z.succ (Zpos (digits2_pos m)) - 1)%Z
      with (Z.succ (Zpos (digits2_pos m) - 1)) by lia.
    rewrite !Z.pow_succ_r by lia. lia.
  - simpl. lia.
Qed.

Lemma iter_xO_pow (m d : positive) :
  Zpos (Pos.iter xO m d) = (Zpos m * 2 ^ Zpos d)%Z.
Proof.
  induction d as [|d IH] using Pos.peano_ind.
  - simpl. lia.
  - rewrite Pos.iter_succ, Pos2Z.inj_succ, Z.pow_succ_r by lia.
    rewrite Pos2Z.inj_xO, IH. lia.
Qed.

(** Rounding keeps the sign it is given. *)
Lemma round_aux_not_negative (m e : Z) (l : location) :
  SFltb (binary_round_aux prec emax false m e l) (S754_zero false) = false.
Proof.
  unfold binary_round_aux.
  destruct (shr_fexp prec emax m e l) as [mrs e'].
  destruct (shr_fexp prec emax _ e' loc_Exact) as [mrs' e''].
  destruct (shr_m mrs'); try reflexivity.
  destruct (e'' <=? emax - prec)%Z; reflexivity.
Qed.

Lemma normalize_not_negative (D e : Z) :
  (0 <= D)%Z ->
  SFltb (binary_normalize prec emax D e false) (S754_zero false) = false.
Proof.
  intros HD. destruct D as [|d|d]; try lia; simpl.
  - reflexivity.
  - unfold binary_round.
    destruct (shl_align d e _) as [mz ez]. apply round_aux_not_negative.
Qed.

Lemma SFsub_not_negative (X Y : spec_float) :
  valid_binary X = true -> valid_binary Y = true ->
  SFltb X Y = false -> SFltb (S754_zero false) Y = true ->
  SFltb (SF64sub X Y) (S754_zero false) = false.
Proof.
  intros VX VY HXY HY.
  destruct Y as [sy|sy| |sy my ey]; try discriminate HY;
    destruct sy; try discriminate HY;
    destruct X as [sx|sx| |sx mx ex]; try discriminate HXY;
    try destruct sx; try discriminate HXY; try reflexivity.
  (* both finite and positive: the aligned mantissas are ordered *)
  unfold SF64sub, SFsub. apply normalize_not_negative.
  unfold cond_Zopp.
  unfold valid_binary in VX, VY. simpl in VX, VY.
  unfold bounded, canonical_mantissa, fexp, emin in VX, VY.
  apply andb_true_iff in VX, VY. destruct VX as [CX _], VY as [CY _].
  apply Z.eqb_eq in CX, CY.
  pose proof (digits2_pos_bounds mx) as [Lx Ux].
  pose proof (digits2_pos_bounds my) as [Ly Uy].
  unfold SFltb, SFcompare in HXY.
  destruct (Z.compare_spec ex ey) as [E|E|E]; try discriminate HXY.
  - subst ey. rewrite Z.min_id. unfold shl_align. rewrite Z.sub_diag. cbn [fst].
    rewrite Pos.compare_cont_spec in HXY. unfold Pos.switch_Eq in HXY.
    destruct (Pos.compare_spec mx my) as [C|C|C]; try discriminate HXY; lia.
  - rewrite Z.min_r by lia. unfold shl_align. rewrite Z.sub_diag.
    destruct (ey - ex)%Z as [|d|d] eqn:Ed; try lia. cbn [fst].
    rewrite iter_xO_pow.
    assert (Hdx : Zpos (digits2_pos mx) = 53%Z) by (unfold prec, emax in *; lia).
    assert (Hdy : (Zpos (digits2_pos my) <= 53)%Z) by (unfold prec, emax in *; lia).
    rewrite Hdx in Lx.
    assert (Hmy : (Zpos my < 2 ^ 53)%Z).
    { eapply Z.lt_le_trans; [exact Uy|]. apply Z.pow_le_mono_r; lia. }
    assert (Hd : (2 ^ 1 <= 2 ^ Zpos d)%Z) by (apply Z.pow_le_mono_r; lia).
    change (2 ^ (53 - 1))%Z with 4503599627370496%Z in Lx.
    change (2 ^ 53)%Z with 9007199254740992%Z in Hmy.
    change (2 ^ 1)%Z with 2%Z in Hd. nia.
Qed.

(** Debiting a positive amount from a balance that is not below it never
    yields a negative number. *)
Lemma sub_not_negative (x y : float) :
  (x <? y) = false -> (0 <? y) = true -> (x - y <? 0) = false.
Proof.
  rewrite !ltb_spec, sub_spec, Prim2SF_zero.
  apply SFsub_not_negative; apply Prim2SF_valid.
Qed.

(** [Math.round] is defined on the finite numbers and lands within half a
    unit of its argument. *)
Lemma Math_round_nearest (x : float) (q : Q) :
  Js.value x = Some q ->
  exists n, Js.Math_round x = Some n /\
            (q - (1 # 2) < inject_Z n)%Q /\ (inject_Z n <= q + (1 # 2))%Q.
Proof.
  intros H. unfold Js.Math_round. rewrite H. cbn [option_map].
  exists (Qfloor (q + (1 # 2))). split; [reflexivity|].
  pose proof (Qfloor_le (q + (1 # 2))) as Hle.
  pose proof (Qlt_floor (q + (1 # 2))) as Hlt.
  rewrite inject_Z_plus in Hlt. change (inject_Z 1) with 1%Q in Hlt.
  split; lra.
Qed.

(** [Math.round] leaves whole numbers as they are. *)
Lemma Math_round_integer (x : float) (q : Q) (k : Z) :
  Js.value x = Some q -> (q == inject_Z k)%Q -> Js.Math_round x = Some k.
Proof.
  intros H E. unfold Js.Math_round. rewrite H. cbn [option_map]. f_equal.
  rewrite (Qfloor_comp _ (inject_Z k + (1 # 2))%Q) by (rewrite E; reflexivity).
  unfold Qfloor, Qplus, inject_Z. cbn [Qnum Qden].
  change (Zpos (1 * 2)) with 2%Z.
  replace (k * 2 + 1 * 1)%Z with (1 + k * 2)%Z by lia.
  rewrite Z.div_add by lia. reflexivity.
Qed.

End NumberFacts.

(** ** The balance over runs of the dialog *)

Section BalanceInvariant.

Import BuyDeckDialog.
Local Open Scope float_scope.

Variable user : option User.

Lemma settled_initial : settled initialSession.
Proof. repeat split. Qed.

Lemma settled_load (s : Session) (b : float) :
  settled s -> (b <? 0) = false -> settled (step user s (Load b)).
Proof.
  intros (Hb & Ha & Hp) Hn. unfold step.
  destruct user; [|repeat split; assumption].
  repeat split; assumption.
Qed.

(** A click changes no balance; it either ends at once or leaves a
    purchase in flight whose price is valid and covered by the balance. *)
Lemma click_cases (s : Session) (deck : Deck) :
  settled s ->
  balanceOf (step user s (Click deck)) = balanceOf s /\
  ((awaiting (step user s (Click deck)) = None /\
    isPurchasing (dialog (step user s (Click deck))) = false) \/
   (awaiting (step user s (Click deck)) = Some deck /\
    invalidPrice deck = false /\ (balanceOf s <? price deck) = false)).
Proof.
  intros (Hb & Ha & Hp). cbn [step]. rewrite Hp.
  unfold handlePurchase_begin.
  destruct user as [u|]; [|split; [reflexivity|left; split; assumption]].
  destruct (invalidPrice deck) eqn:Hv;
    [split; [reflexivity|left; split; [assumption|reflexivity]]|].
  cbn [userBalance setIsPurchasing].
  destruct (userBalance (dialog s) <? price deck) eqn:Hc.
  - split; [reflexivity|left; split; [assumption|reflexivity]].
  - split; [reflexivity|right]. repeat split. exact Hc.
Qed.

(** The purchase a click may start ends in a settled state whatever the
    outcome of [purchaseDeck]. *)
Lemma settled_purchase (s : Session) (deck : Deck) (o : Outcome unit) :
  settled s ->
  settled (step user (step user s (Click deck)) (PurchaseReturns o)).
Proof.
  intros Hs. destruct (click_cases s deck Hs) as [Hsame [[Ha Hp]|(Ha & Hv & Hc)]];
    destruct Hs as (Hb & _ & _); cbn [step] in *; rewrite Ha.
  - repeat split; [rewrite Hsame; exact Hb|exact Ha|exact Hp].
  - destruct o as [[]|m]; repeat split.
    + unfold balanceOf in *. cbn [dialog handlePurchase_resume userBalance
        setIsPurchasing onClose setUserBalance toast]. rewrite Hsame.
      apply sub_not_negative; [exact Hc|]. apply valid_price_positive; exact Hv.
    + unfold balanceOf in *. cbn [dialog handlePurchase_resume userBalance
        setIsPurchasing consoleError toast]. rewrite Hsame. exact Hb.
Qed.

Lemma sequential_prefix_not_negative (ops : list SeqOp) :
  refreshes_not_negative ops ->
  forall (s : Session) (n : nat), settled s ->
    (balanceOf (run user (firstn n (flat_map expand ops)) s) <? 0) = false.
Proof.
  induction ops as [|op ops IH]; intros Hr s n Hs.
  - simpl. rewrite firstn_nil. simpl. apply Hs.
  - assert (Hr' : refreshes_not_negative ops).
    { intros b Hin. apply Hr. right. exact Hin. }
    destruct op as [b|deck o]; cbn [flat_map expand app].
    + destruct n as [|n]; [apply Hs|].
      cbn [firstn]. unfold run. cbn [fold_left]. apply (IH Hr').
      apply settled_load; [exact Hs|]. apply Hr. left. reflexivity.
    + destruct (click_cases s deck Hs) as [Hsame _].
      pose proof (settled_purchase s deck o Hs) as Hnext.
      destruct n as [|[|n]].
      * apply Hs.
      * cbn [firstn]. unfold run. cbn [fold_left]. rewrite Hsame. apply Hs.
      * cbn [firstn]. unfold run. cbn [fold_left]. apply (IH Hr'). exact Hnext.
Qed.

End BalanceInvariant.

(** C1 (as stated, refuted): a balance refresh that lands between the check
    of [handlePurchase] and its debit leaves the displayed balance negative.
    The dialog holds 10 from an earlier load; it is reopened, which starts a
    reload, and the purchase of a deck priced 10 is clicked at once: the check
    passes on the rendered 10 and [purchaseDeck] is awaited.  The reload then
    resolves with 4, and when the purchase returns the debit is applied to 4. *)
Lemma C1_stale_check_overdraws :
  let ops := [BuyDeckDialog.Load 10%float; BuyDeckDialog.Click deck10;
              BuyDeckDialog.Load 4%float;
              BuyDeckDialog.PurchaseReturns (Resolves tt)] in
  BuyDeckDialog.loads_not_negative ops /\
  BuyDeckDialog.balanceOf
    (BuyDeckDialog.run (Some alice) ops BuyDeckDialog.initialSession) = (-6)%float /\
  ~ BuyDeckDialog.never_negative (Some alice) ops.
Proof.
  cbv zeta. split; [|split].
  - intros b [H|[H|[H|[H|[]]]]]; inversion H; reflexivity.
  - vm_compute. reflexivity.
  - intros H. specialize (H 4%nat). vm_compute in H. discriminate H.
Qed.

(** C1 (amended): in every run in which each purchase completes before the
    next operation starts, and the balances the server reports are not
    negative, the displayed balance is never negative, at any point of the
    run.  The check is a test of the rendered balance made before the
    purchase call; it is not repeated when the debit is applied. *)
Theorem C1_sequential_balance_never_negative
    (user : option User) (ops : list BuyDeckDialog.SeqOp) :
  BuyDeckDialog.refreshes_not_negative ops ->
  BuyDeckDialog.never_negative user (flat_map BuyDeckDialog.expand ops).
Proof.
  intros Hr n. apply sequential_prefix_not_negative; [exact Hr|].
  apply settled_initial.
Qed.

(** A refresh to 25 followed by four purchases of a deck priced 10. *)
Lemma C1_sequential_balance_never_negative_witness :
  BuyDeckDialog.never_negative (Some alice)
    (flat_map BuyDeckDialog.expand
       [BuyDeckDialog.Refresh 25%float;
        BuyDeckDialog.Purchase deck10 (Resolves tt);
        BuyDeckDialog.Purchase deck10 (Rejects None);
        BuyDeckDialog.Purchase deck10 (Resolves tt);
        BuyDeckDialog.Purchase deck10 (Resolves tt)]).
Proof.
  apply C1_sequential_balance_never_negative.
  intros b [H|[H|[H|[H|[H|[]]]]]]; inversion H; reflexivity.
Defined.

(** ** The webhook handlers *)

Section WebhookFacts.

Variable constructEvent : ReqBody -> option string -> string -> Event + string.
Variable secret : string.



(** Neither handler answers 400 to a verified event. *)
Lemma api_handle_event_status (event : Event) :
  status (response (ApiJs.handle_event event)) <> 400.
Proof.
  unfold ApiJs.handle_event.
  destruct (String.eqb (event_type event) "checkout.session.completed").
  - destruct (metadata_of (data_object event)); discriminate.
  - destruct (String.eqb (event_type event) "account.updated"); discriminate.
Qed.

Lemma ts_handle_event_status (event : Event) (purchased : Outcome unit) :
  status (response (StripeTs.handle_event event purchased)) <> 400.
Proof.
  unfold StripeTs.handle_event.
  destruct (String.eqb (event_type event) "checkout.session.completed");
    [|discriminate].
  destruct (metadata_of (data_object event)); [|discriminate].
  destruct purchased; discriminate.
Qed.

(** On a verified completed checkout carrying metadata, the [stripe.ts]
    handler calls [purchaseDeck] exactly once. *)
Lemma ts_completed_mutations (req : Request) (event : Event) (md : Metadata)
    (purchased : Outcome unit) :
  constructEvent (req_body req) (stripe_signature req) secret = inl event ->
  event_type event = "checkout.session.completed" ->
  metadata_of (data_object event) = Some md ->
  mutations (StripeTs.webhook constructEvent secret req purchased)
  = [CallPurchaseDeck (lookup "userId" md) (lookup "deckId" md)].
Proof.
  intros Hv Ht Hm. unfold StripeTs.webhook, StripeTs.handle_event.
  rewrite Hv, Ht, Hm. destruct purchased; reflexivity.
Qed.

End WebhookFacts.

(** C2 (as stated, refuted): a verified completed top-up of 200.00 for alice
    reaches the [api.js] handler, which logs the amount and acknowledges; no
    balance is credited and nothing is settled.  The [stripe.ts] handler, on
    the same event, calls [purchaseDeck(userId, deckId)] with the metadata
    ids (here no [deckId]) and never reads the amount. *)
Lemma C2_completed_topup_credits_nothing :
  ApiJs.webhook (verifyWith rechargeEvent) "whsec" signedRequest
  = {| effects := [ConsoleLog (CheckoutComplete (Some "alice") (Some "recharge") 200%float)];
       response := json JsonReceived |} /\
  mutations (ApiJs.webhook (verifyWith rechargeEvent) "whsec" signedRequest) = [] /\
  mutations (StripeTs.webhook (verifyWith rechargeEvent) "whsec" signedRequest (Resolves tt))
  = [CallPurchaseDeck (Some "alice") None].
Proof. repeat split; vm_compute; reflexivity. Qed.

(** C2 (amended): for every verified [checkout.session.completed] event whose
    session carries metadata, the [api.js] handler logs the user, the type and
    the amount and answers [{received: true}] without any mutation; the
    [stripe.ts] handler calls [purchaseDeck(userId, deckId)] once with the
    ids of the metadata, without any request from the client, and answers
    [{received: true}] if the call resolves and 500 if it rejects. *)
Theorem C2_completed_checkout_handling
    (constructEvent : ReqBody -> option string -> string -> Event + string)
    (secret : string) (req : Request) (event : Event) (md : Metadata) :
  constructEvent (req_body req) (stripe_signature req) secret = inl event ->
  event_type event = "checkout.session.completed" ->
  metadata_of (data_object event) = Some md ->
  ApiJs.webhook constructEvent secret req
  = {| effects := [ConsoleLog (CheckoutComplete (lookup "userId" md) (lookup "type" md)
                                 (amount_of (data_object event)))];
       response := json JsonReceived |} /\
  StripeTs.webhook constructEvent secret req (Resolves tt)
  = {| effects := [CallPurchaseDeck (lookup "userId" md) (lookup "deckId" md);
                   ConsoleLog (ProcessedPurchase (lookup "deckId" md) (lookup "userId" md))];
       response := json JsonReceived |} /\
  forall message,
    StripeTs.webhook constructEvent secret req (Rejects message)
    = {| effects := [CallPurchaseDeck (lookup "userId" md) (lookup "deckId" md);
                     ConsoleError "Error processing purchase:"];
         response := {| status := 500; body := Send "Failed to process purchase" |} |}.
Proof.
  intros Hv Ht Hm.
  unfold ApiJs.webhook, ApiJs.handle_event, StripeTs.webhook, StripeTs.handle_event.
  rewrite Hv, Ht, Hm. cbn [String.eqb]. repeat split.
Qed.

(** The completed checkout of deck-1 by alice, delivered to [stripe.ts]. *)
Lemma C2_completed_checkout_handling_witness :
  StripeTs.webhook (verifyWith deckEvent) "whsec" signedRequest (Resolves tt)
  = {| effects := [CallPurchaseDeck (Some "alice") (Some "deck-1");
                   ConsoleLog (ProcessedPurchase (Some "deck-1") (Some "alice"))];
       response := json JsonReceived |}.
Proof.
  apply (C2_completed_checkout_handling (verifyWith deckEvent) "whsec" signedRequest
           deckEvent [("deckId", "deck-1"); ("userId", "alice")]); reflexivity.
Defined.






(** ** The purchase handlers *)

Section PurchaseFacts.

Local Open Scope float_scope.

(** In both dialogs the part of [handlePurchase] before the [await] leaves
    the balance as it is. *)
Lemma begin_keeps_balance (user : option User) (deck : Deck) (d : Dialog) :
  userBalance (fst (BuyDeckDialog.handlePurchase_begin user deck d)) = userBalance d /\
  userBalance (fst (BuyDeckDialogRecharge.handlePurchase_begin user deck d)) = userBalance d.
Proof.
  unfold BuyDeckDialog.handlePurchase_begin, BuyDeckDialogRecharge.handlePurchase_begin.
  destruct user as [u|]; [|split; reflexivity].
  destruct (invalidPrice deck); [split; reflexivity|].
  cbn [userBalance setIsPurchasing].
  destruct (userBalance d <? price deck); split; reflexivity.
Qed.

(** With a valid price that the balance covers, [handlePurchase] issues the
    purchase call and suspends on it. *)
Lemma begin_sufficient (u : User) (deck : Deck) (d : Dialog) :
  invalidPrice deck = false -> (userBalance d <? price deck) = false ->
  BuyDeckDialog.handlePurchase_begin (Some u) deck d
  = (call (PurchaseDeck (uid u) (deck_id deck) (price deck)) (setIsPurchasing true d),
     Some (AwaitPurchase deck)) /\
  BuyDeckDialogRecharge.handlePurchase_begin (Some u) deck d
  = (call (ProcessDeckPurchase (uid u) (deck_id deck) (price deck)) (setIsPurchasing true d),
     Some (AwaitPurchase deck)).
Proof.
  intros Hv Hc.
  unfold BuyDeckDialog.handlePurchase_begin, BuyDeckDialogRecharge.handlePurchase_begin.
  rewrite Hv. cbn [userBalance setIsPurchasing]. rewrite Hc. split; reflexivity.
Qed.

(** With a valid price above the balance, no purchase call is issued. *)
Lemma begin_insufficient (u : User) (deck : Deck) (d : Dialog) :
  invalidPrice deck = false -> (userBalance d <? price deck) = true ->
  BuyDeckDialog.handlePurchase_begin (Some u) deck d
  = (setIsPurchasing false
       (toast {| title := "Insufficient balance";
                 description := NeedMore (price deck - userBalance d);
                 variant := Destructive |} (setIsPurchasing true d)),
     None) /\
  BuyDeckDialogRecharge.handlePurchase_begin (Some u) deck d
  = (setIsPurchasing false
       (call (CreateCreditCheckoutSession (uid u) (price deck - userBalance d))
          (setIsPurchasing true d)),
     Some AwaitCheckout).
Proof.
  intros Hv Hc.
  unfold BuyDeckDialog.handlePurchase_begin, BuyDeckDialogRecharge.handlePurchase_begin.
  rewrite Hv. cbn [userBalance setIsPurchasing]. rewrite Hc. split; reflexivity.
Qed.


End PurchaseFacts.

(** C4 (as stated, refuted): in [BuyDeckDialog.tsx] a purchase attempted with
    balance 4 on a deck priced 10 ends in a destructive "Insufficient balance"
    toast; no checkout session is requested and the page is not redirected. *)
Lemma C4_insufficient_balance_is_a_destructive_toast :
  BuyDeckDialog.handlePurchase_begin (Some alice) deck10 (withBalance 4%float)
  = ({| userBalance := 4%float; isPurchasing := false;
        toasts := [{| title := "Insufficient balance";
                      description := NeedMore 6%float;
                      variant := Destructive |}];
        calls := []; onClose_calls := 0%nat; console_error := [];
        location_href := None |},
     None).
Proof. vm_compute. reflexivity. Qed.

(** C4 (amended): for every purchase request with a valid price and a
    balance strictly below it, the purchase is not settled: no purchase call
    is issued and the balance is unchanged.  In [BuyDeckDialog.tsx] the
    request ends with a destructive "Insufficient balance" toast that names
    the shortfall [price - balance], without redirect.  In the recharge
    variant a checkout session is requested for exactly [price - balance],
    and when that resolves with a non-empty URL the page is redirected to
    it, without any toast. *)
Theorem C4_insufficient_balance_paths (u : User) (deck : Deck) (d : Dialog) :
  invalidPrice deck = false ->
  (userBalance d <? price deck)%float = true ->
  (* BuyDeckDialog.tsx *)
  (forall o,
      let d' := BuyDeckDialog.handlePurchase (Some u) deck o d in
      toasts d' = (toasts d ++ [{| title := "Insufficient balance";
                                   description := NeedMore (price deck - userBalance d)%float;
                                   variant := Destructive |}])%list /\
      calls d' = calls d /\ userBalance d' = userBalance d /\
      location_href d' = location_href d) /\
  (* the recharge variant, up to the checkout call *)
  (let (d', pending) := BuyDeckDialogRecharge.handlePurchase_begin (Some u) deck d in
   pending = Some AwaitCheckout /\
   calls d' = (calls d ++ [CreateCreditCheckoutSession (uid u)
                             (price deck - userBalance d)%float])%list /\
   toasts d' = toasts d /\ userBalance d' = userBalance d) /\
  (* the recharge variant, once the checkout call has resolved with a URL *)
  (forall o url,
      url <> "" ->
      let d' := BuyDeckDialogRecharge.handlePurchase (Some u) deck o
                  (Resolves (Some url)) d in
      location_href d' = Some url /\ toasts d' = toasts d /\
      userBalance d' = userBalance d).
Proof.
  intros Hv Hc.
  destruct (begin_insufficient u deck d Hv Hc) as [H1 H2].
  split; [|split].
  - intros o. unfold BuyDeckDialog.handlePurchase. rewrite H1.
    cbv zeta. repeat split.
  - rewrite H2. repeat split.
  - intros o url Hurl. unfold BuyDeckDialogRecharge.handlePurchase. rewrite H2.
    cbv zeta. unfold BuyDeckDialogRecharge.handleRecharge_resume,
      BuyDeckDialogRecharge.truthy_url.
    destruct (String.eqb_spec url ""); [contradiction|]. repeat split.
Qed.

(** Balance 4, price 10, and a checkout session that resolves with a URL. *)
Lemma C4_insufficient_balance_paths_witness :
  let d' := BuyDeckDialogRecharge.handlePurchase (Some alice) deck10 (Resolves tt)
              (Resolves (Some "https://checkout.stripe.com/c/pay")) (withBalance 4%float) in
  location_href d' = Some "https://checkout.stripe.com/c/pay" /\
  toasts d' = [] /\ userBalance d' = 4%float.
Proof.
  cbv zeta.
  destruct (C4_insufficient_balance_paths alice deck10 (withBalance 4%float)
              eq_refl eq_refl) as (_ & _ & H).
  apply (H (Resolves tt) "https://checkout.stripe.com/c/pay"). discriminate.
Defined.




(** Beyond 2^53 subtracting 1 may return the number itself: the hypothesis
    [price - step < price] of the theorem below is not vacuous. *)
Example minus_one_beyond_2_53 :
  (9007199254740996 - 1 <? 9007199254740996)%float = false /\
  (9007199254740992 - 1 <? 9007199254740992)%float = true.
Proof. split; reflexivity. Qed.

(** C8 (as stated, refuted): balances and prices are binary64 numbers in
    major units, and a balance that equals the price in minor units need not
    be the same number.  A balance of 29.97 after two purchases of a deck
    priced 9.99 is 9.9899999999999967: the dialog shows it as 9.99, as it
    shows the price, yet the third purchase is blocked, with a shortfall shown
    as 0.00.  The blocked request ends in a toast, not on a top-up path. *)
Lemma C8_equal_in_cents_is_blocked :
  let s := BuyDeckDialog.run (Some alice)
             [BuyDeckDialog.Load 29.97%float;
              BuyDeckDialog.Click deck999; BuyDeckDialog.PurchaseReturns (Resolves tt);
              BuyDeckDialog.Click deck999; BuyDeckDialog.PurchaseReturns (Resolves tt)]
             BuyDeckDialog.initialSession in
  let s' := BuyDeckDialog.step (Some alice) s (BuyDeckDialog.Click deck999) in
  Js.toFixed2 29.97%float = Some 2997 /\
  Js.toFixed2 (price deck999) = Some 999 /\
  Js.toFixed2 (BuyDeckDialog.balanceOf s) = Some 999 /\
  (BuyDeckDialog.balanceOf s <? price deck999)%float = true /\
  BuyDeckDialog.awaiting s' = None /\
  calls (BuyDeckDialog.dialog s') = calls (BuyDeckDialog.dialog s) /\
  map title (toasts (BuyDeckDialog.dialog s'))
  = ["Purchase successful"; "Purchase successful"; "Insufficient balance"] /\
  Js.toFixed2 (price deck999 - BuyDeckDialog.balanceOf s)%float = Some 0 /\
  location_href (BuyDeckDialog.dialog s') = None.
Proof. cbv zeta. repeat split; vm_compute; reflexivity. Qed.

(** C8 (amended): with a valid price, a purchase is blocked exactly when the
    balance is strictly below the price as a binary64 number.  A balance that
    is the price itself, or any number not below it, goes through: both
    dialogs issue the purchase call, and when it resolves the purchase is
    reported successful, the price is debited and the dialog closes.  Every
    balance strictly below the price, [price - step] for a whole unit or a
    hundredth as for any other step that binary64 subtraction resolves, is
    blocked: no purchase call is issued; [BuyDeckDialog.tsx] reports the
    shortfall in a toast and the recharge variant requests a checkout session
    for it. *)
Theorem C8_balance_boundary (u : User) (deck : Deck) (d : Dialog) :
  invalidPrice deck = false ->
  ((userBalance d <? price deck)%float = false -> purchase_goes_through u deck d) /\
  ((userBalance d <? price deck)%float = true -> purchase_is_blocked u deck d) /\
  purchase_goes_through u deck (setUserBalance (fun _ => price deck) d) /\
  (forall step : Js.number,
      (price deck - step <? price deck)%float = true ->
      purchase_is_blocked u deck (setUserBalance (fun _ => (price deck - step)%float) d)).
Proof.
  intros Hv.
  assert (Hgo : forall d0, (userBalance d0 <? price deck)%float = false ->
                           purchase_goes_through u deck d0).
  { intros d0 Hc. destruct (begin_sufficient u deck d0 Hv Hc) as [E1 E2].
    unfold purchase_goes_through. split; [exact E1|]. split; [exact E2|].
    split; [|split].
    - intros Hp. unfold BuyDeckDialogRecharge.click, BuyDeckDialogRecharge.onClick.
      rewrite Hp, Hc. reflexivity.
    - intros o. unfold BuyDeckDialog.handlePurchase. rewrite E1. cbv zeta.
      destruct o as [[]|m]; cbn; rewrite map_app; repeat split.
    - intros o checkout. unfold BuyDeckDialogRecharge.handlePurchase. rewrite E2.
      cbv zeta. destruct o as [[]|m]; cbn; rewrite map_app; repeat split. }
  assert (Hno : forall d0, (userBalance d0 <? price deck)%float = true ->
                           purchase_is_blocked u deck d0).
  { intros d0 Hc. destruct (begin_insufficient u deck d0 Hv Hc) as [B1 B2].
    unfold purchase_is_blocked. split; [|split].
    - intros o. unfold BuyDeckDialog.handlePurchase. rewrite B1. cbv zeta.
      repeat split.
    - intros Hp. unfold BuyDeckDialogRecharge.click, BuyDeckDialogRecharge.onClick.
      rewrite Hp, Hc. reflexivity.
    - intros o checkout. unfold BuyDeckDialogRecharge.handlePurchase. rewrite B2.
      cbv zeta. unfold BuyDeckDialogRecharge.handleRecharge_resume.
      assert (Hurl : forall d1 checkout0 url,
                 checkout0 = Resolves (Some url) -> url <> "" ->
                 BuyDeckDialogRecharge.handleRecharge_resume checkout0 d1
                 = setLocationHref url d1).
      { intros d1 checkout0 url -> Hne.
        unfold BuyDeckDialogRecharge.handleRecharge_resume,
          BuyDeckDialogRecharge.truthy_url.
        destruct (String.eqb_spec url ""); [contradiction|reflexivity]. }
      split; [|split; [|split; [|split]]].
      1-4: destruct checkout as [url|m];
        [unfold BuyDeckDialogRecharge.truthy_url; destruct url as [url|];
         [destruct (String.eqb url "")|]|]; reflexivity.
      intros url E Hne.
      change (match checkout with
              | Resolves url0 => _
              | Rejects message => _
              end)
        with (BuyDeckDialogRecharge.handleRecharge_resume checkout
                (setIsPurchasing false
                   (call (CreateCreditCheckoutSession (uid u)
                            (price deck - userBalance d0)%float)
                      (setIsPurchasing true d0)))).
      rewrite (Hurl _ _ url E Hne). split; reflexivity. }
  split; [apply Hgo|]. split; [apply Hno|]. split.
  - apply Hgo. cbn [userBalance setUserBalance]. apply ltb_irrefl.
  - intros step Hlt. apply Hno. cbn [userBalance setUserBalance]. exact Hlt.
Qed.

(** A deck priced 10 at balance 10, at balance 9 and at balance 9.99. *)
Lemma C8_balance_boundary_witness :
  purchase_goes_through alice deck10 (withBalance 10%float) /\
  purchase_is_blocked alice deck10 (withBalance (10 - 1)%float) /\
  purchase_is_blocked alice deck10 (withBalance (10 - 0.01)%float).
Proof.
  destruct (C8_balance_boundary alice deck10 initialDialog eq_refl)
    as (_ & _ & Hequal & Hbelow).
  split; [exact Hequal|].
  split; [apply (Hbelow 1%float)|apply (Hbelow 0.01%float)]; reflexivity.
Defined.

(** C10: if the purchase call rejects, the displayed balance is left as it
    was.  In both dialogs the part of [handlePurchase] before the call does
    not touch the balance, the continuation debits the price when the call
    resolves, and leaves the balance alone when it rejects; so a whole run of
    [handlePurchase] whose purchase call rejects ends with the balance it
    started with. *)
Theorem C10_failed_purchase_keeps_balance
    (user : option User) (deck : Deck) (message : option string)
    (checkout : Outcome (option string)) (d : Dialog) :
  userBalance (BuyDeckDialog.handlePurchase user deck (Rejects message) d)
  = userBalance d /\
  userBalance (BuyDeckDialogRecharge.handlePurchase user deck (Rejects message) checkout d)
  = userBalance d /\
  userBalance (BuyDeckDialog.handlePurchase_resume deck (Rejects message) d)
  = userBalance d /\
  userBalance (BuyDeckDialogRecharge.handlePurchase_resume deck (Rejects message) d)
  = userBalance d /\
  userBalance (BuyDeckDialog.handlePurchase_resume deck (Resolves tt) d)
  = (userBalance d - price deck)%float /\
  userBalance (BuyDeckDialogRecharge.handlePurchase_resume deck (Resolves tt) d)
  = (userBalance d - price deck)%float /\
  userBalance (fst (BuyDeckDialog.handlePurchase_begin user deck d)) = userBalance d /\
  userBalance (fst (BuyDeckDialogRecharge.handlePurchase_begin user deck d))
  = userBalance d.
Proof.
  destruct (begin_keeps_balance user deck d) as [B1 B2].
  repeat split; try assumption.
  - unfold BuyDeckDialog.handlePurchase.
    destruct (BuyDeckDialog.handlePurchase_begin user deck d) as [d' [[deck'|]|]];
      cbn [fst] in B1; exact B1.
  - unfold BuyDeckDialogRecharge.handlePurchase.
    destruct (BuyDeckDialogRecharge.handlePurchase_begin user deck d)
      as [d' [[deck'|]|]]; cbn [fst] in B2; try exact B2.
    unfold BuyDeckDialogRecharge.handleRecharge_resume.
    destruct checkout as [url|m]; [destruct (BuyDeckDialogRecharge.truthy_url url)|];
      exact B2.
Qed.

(** ** Amounts sent to Stripe *)

Lemma all_from_spec (P : Z -> bool) (fuel : nat) : forall k j,
  all_from fuel k P = true -> k <= j < k + Z.of_nat fuel -> P j = true.
Proof.
  induction fuel as [|fuel IH]; intros k j H Hj; [lia|].
  cbn [all_from] in H. destruct (P k) eqn:Hk; [|discriminate H].
  destruct (Z.eq_dec j k) as [->|Hne]; [exact Hk|].
  apply (IH (k + 1)); [exact H|lia].
Qed.

(** The two checks below, run on every amount from 0.00 to 1000.00. *)
Lemma cent_amounts_checked :
  all_from (Z.to_nat 100001) 0 (fun k => cents_exact k && seller_share_ok k) = true.
Proof. vm_compute. reflexivity. Qed.

Lemma cent_amount_checked (k : Z) :
  0 <= k <= 100000 -> cents_exact k = true /\ seller_share_ok k = true.
Proof.
  intros Hk. apply andb_true_iff.
  apply (all_from_spec (fun k => cents_exact k && seller_share_ok k)
           (Z.to_nat 100001) 0 k cent_amounts_checked).
  rewrite Z2Nat.id; lia.
Qed.

(** The scenario of the specification: of a deck priced 7.00 the seller is
    transferred 630 minor units. *)
Example seller_share_of_seven : ApiJs.sellerAmount 7%float = Some 630.
Proof. vm_compute. reflexivity. Qed.

(** The share is the rounded binary64 product, which is not always the
    rounded exact share.  Of 1.15 nine tenths are 103.5 minor units, and 103
    are transferred, the product being just below 103.5; of 0.35 they are
    31.5, and 32 are transferred, although the binary64 number 0.35 is below
    35/100. *)
Example seller_share_near_a_tie :
  of_cents 115 = 1.15%float /\ ApiJs.sellerAmount 1.15%float = Some 103 /\
  of_cents 35 = 0.35%float /\ ApiJs.sellerAmount 0.35%float = Some 32.
Proof. repeat split; vm_compute; reflexivity. Qed.

(** C7 (as stated, refuted): the seller's share is rounded to a whole number
    of minor units.  For a price of 0.25 (25 minor units) the transfer is 23
    minor units, not 0.9 * 25 = 22.5. *)
Lemma C7_seller_share_is_rounded :
  Js.has_value 0.25%float (1 # 4) /\
  submitted_amounts (ApiJs.process_purchase 0.25%float "acct_1" (Resolves "tr_1"))
  = [Some 23] /\
  ~ (inject_Z 23 == (9 # 10) * ((1 # 4) * 100))%Q.
Proof.
  split; [|split].
  - eexists. split; [vm_compute; reflexivity|]. vm_compute. reflexivity.
  - vm_compute. reflexivity.
  - vm_compute. discriminate.
Qed.

(** C7 (amended): for every amount A and valid price P with A not below P, a
    balance refresh to A followed by a purchase of P that resolves ends with
    displayed balance [A - P], success reported and exactly one purchase
    call.  The seller's transfer, computed by [/process-purchase], is
    [Math.round(P * 0.9 * 100)], the factor [0.9] appearing once: a whole
    number of minor units within half a unit of the binary64 product
    [P * 0.9 * 100].  For every price of whole cents up to 1000.00 it is
    within half a minor unit of nine tenths of the price, and it is exactly
    nine tenths of the price when that is a multiple of ten cents. *)
Theorem C7_topup_then_purchase (u : User) (A : Js.number) (deck : Deck) :
  invalidPrice deck = false ->
  (A <? price deck)%float = false ->
  (let s := BuyDeckDialog.run (Some u)
              [BuyDeckDialog.Load A; BuyDeckDialog.Click deck;
               BuyDeckDialog.PurchaseReturns (Resolves tt)]
              BuyDeckDialog.initialSession in
   BuyDeckDialog.balanceOf s = (A - price deck)%float /\
   calls (BuyDeckDialog.dialog s) = [PurchaseDeck (uid u) (deck_id deck) (price deck)] /\
   map title (toasts (BuyDeckDialog.dialog s)) = ["Purchase successful"] /\
   BuyDeckDialog.awaiting s = None) /\
  (forall q, Js.value (price deck * 0.9 * 100)%float = Some q ->
     exists n : Z,
       (forall accountId transferred,
           submitted_amounts (ApiJs.process_purchase (price deck) accountId transferred)
           = [Some n]) /\
       (q - (1 # 2) < inject_Z n)%Q /\ (inject_Z n <= q + (1 # 2))%Q) /\
  (forall k, 0 <= k <= 100000 -> price deck = of_cents k ->
     exists n : Z,
       (forall accountId transferred,
           submitted_amounts (ApiJs.process_purchase (price deck) accountId transferred)
           = [Some n]) /\
       Z.abs (10 * n - 9 * k) <= 5 /\ 0 <= n <= k /\
       (k mod 10 = 0 -> 10 * n = 9 * k)).
Proof.
  intros Hv Hc.
  assert (Hsub : forall n, ApiJs.sellerAmount (price deck) = Some n ->
             forall accountId transferred,
               submitted_amounts (ApiJs.process_purchase (price deck) accountId transferred)
               = [Some n]).
  { intros n Hn accountId transferred. unfold ApiJs.process_purchase.
    destruct transferred; unfold submitted_amounts;
      cbn [effects flat_map app transfer_amount]; rewrite Hn; reflexivity. }
  split; [|split].
  - cbv zeta. unfold BuyDeckDialog.run. cbn [fold_left].
    unfold BuyDeckDialog.step, BuyDeckDialog.handlePurchase_begin.
    cbn -[invalidPrice]. rewrite Hv. cbn -[invalidPrice]. rewrite Hc.
    cbn. repeat split.
  - intros q Hq.
    destruct (Math_round_nearest _ _ Hq) as (n & Hn & Hlo & Hhi).
    exists n. split; [apply Hsub; exact Hn|]. split; assumption.
  - intros k Hk Hp. destruct (cent_amount_checked k Hk) as [_ H].
    unfold seller_share_ok in H. rewrite <- Hp in H.
    destruct (ApiJs.sellerAmount (price deck)) as [n|] eqn:Hn; [|discriminate H].
    apply andb_true_iff in H. destruct H as [H H4].
    apply andb_true_iff in H. destruct H as [H H3].
    apply andb_true_iff in H. destruct H as [H1 H2].
    apply Z.leb_le in H1, H2, H3.
    exists n. split; [apply Hsub; reflexivity|]. split; [exact H1|].
    split; [split; assumption|].
    intros Hm. apply Z.eqb_eq in Hm. rewrite Hm in H4. apply Z.eqb_eq in H4. exact H4.
Qed.

(** The scenario of the specification: a balance of 7.00 and a deck priced
    7.00; the balance ends at 0 and the seller is transferred 630. *)
Lemma C7_topup_then_purchase_witness :
  let deck := {| deck_id := "deck-7"; price := 7%float |} in
  let s := BuyDeckDialog.run (Some alice)
             [BuyDeckDialog.Load 7%float; BuyDeckDialog.Click deck;
              BuyDeckDialog.PurchaseReturns (Resolves tt)]
             BuyDeckDialog.initialSession in
  BuyDeckDialog.balanceOf s = 0%float /\
  calls (BuyDeckDialog.dialog s) = [PurchaseDeck "alice" "deck-7" 7%float] /\
  submitted_amounts (ApiJs.process_purchase 7%float "acct_1" (Resolves "tr_1"))
  = [Some 630].
Proof.
  cbv zeta.
  destruct (C7_topup_then_purchase alice 7%float
              {| deck_id := "deck-7"; price := 7%float |} eq_refl eq_refl)
    as ((Hb & Hcalls & _) & _ & Hcents).
  split; [exact Hb|]. split; [exact Hcalls|].
  destruct (Hcents 700 ltac:(lia) eq_refl) as (n & Hn & _ & _ & Hexact).
  pose proof (Hn "acct_1" (Resolves "tr_1")) as E. cbn [price] in E. rewrite E.
  specialize (Hexact eq_refl). do 2 f_equal. lia.
Defined.

(** C9 (as stated, refuted): amounts reach the routes as JavaScript numbers
    in major units and are converted with [Math.round(amount * 100)].  An
    amount of 0.125 (12.5 minor units) is submitted as 13 by both
    [/create-checkout-session] routes. *)
Lemma C9_submitted_amount_is_rounded :
  Js.has_value 0.125%float (1 # 8) /\
  submitted_amounts (ApiJs.create_checkout_session "alice" 0.125%float
                       (Resolves (Some "https://checkout.stripe.com/c/pay")))
  = [Some 13] /\
  submitted_amounts (StripeTs.create_checkout_session "deck-1" "alice" "Deck" 0.125%float
                       (Resolves (Some "https://checkout.stripe.com/c/pay")))
  = [Some 13] /\
  ~ (inject_Z 13 == (1 # 8) * 100)%Q.
Proof.
  split; [|split; [|split]].
  - eexists. split; [vm_compute; reflexivity|]. vm_compute. reflexivity.
  - vm_compute. reflexivity.
  - vm_compute. reflexivity.
  - vm_compute. discriminate.
Qed.

(** C9 (amended): an amount is a binary64 number in major units; what both
    [/create-checkout-session] routes submit to the processor is
    [Math.round(amount * 100)], a whole number of minor units within half a
    unit of the product [amount * 100].  Whenever that product is a whole
    number, it is submitted exactly. *)
Theorem C9_unit_amount_is_rounded_product (amount : Js.number) (q : Q) :
  Js.value (amount * 100)%float = Some q ->
  exists n : Z,
    (forall userId created,
        submitted_amounts (ApiJs.create_checkout_session userId amount created)
        = [Some n]) /\
    (forall deckId userId deckTitle created,
        submitted_amounts (StripeTs.create_checkout_session deckId userId deckTitle
                             amount created)
        = [Some n]) /\
    (q - (1 # 2) < inject_Z n)%Q /\ (inject_Z n <= q + (1 # 2))%Q /\
    (forall k, (q == inject_Z k)%Q -> n = k).
Proof.
  intros Hq. destruct (Math_round_nearest _ _ Hq) as (n & Hn & Hlo & Hhi).
  exists n. repeat split; try assumption.
  - intros userId created. unfold ApiJs.create_checkout_session.
    destruct created; cbn; rewrite Hn; reflexivity.
  - intros deckId userId deckTitle created. unfold StripeTs.create_checkout_session.
    destruct created; cbn; rewrite Hn; reflexivity.
  - intros k Hk. pose proof (Math_round_integer _ _ _ Hq Hk) as Hi.
    rewrite Hn in Hi. injection Hi as Hi. exact Hi.
Qed.

(** An amount of 9.99. *)
Lemma C9_unit_amount_is_rounded_product_witness :
  exists n : Z,
    (forall userId created,
        submitted_amounts (ApiJs.create_checkout_session userId 9.99%float created)
        = [Some n]) /\
    (forall deckId userId deckTitle created,
        submitted_amounts (StripeTs.create_checkout_session deckId userId deckTitle
                             9.99%float created)
        = [Some n]).
Proof.
  destruct (C9_unit_amount_is_rounded_product 9.99%float _ eq_refl)
    as (n & H1 & H2 & _).
  exists n. split; [exact H1|exact H2].
Defined.

(* ================================================================== *)
(** * Part III: further properties of the code                         *)
(* ================================================================== *)

(** ** More facts about binary64 numbers *)

Section ShortfallFacts.

Local Open Scope float_scope.

(** [shr_1] halves a mantissa that is not negative. *)
Lemma shr_1_halves (mrs : shr_record) :
  (0 <= shr_m mrs)%Z -> shr_m (shr_1 mrs) = (shr_m mrs / 2)%Z.
Proof.
  destruct mrs as [m r s]. simpl. intros H.
  destruct m as [|p|p]; try lia.
  - reflexivity.
  - destruct p as [p|p|]; simpl shr_m.
    + rewrite Pos2Z.inj_xI. replace (2 * Zpos p + 1)%Z with (1 + Zpos p * 2)%Z by lia.
      rewrite Z.div_add by lia. reflexivity.
    + rewrite Pos2Z.inj_xO. replace (2 * Zpos p)%Z with (Zpos p * 2)%Z by lia.
      rewrite Z.div_mul by lia. reflexivity.
    + reflexivity.
Qed.

Lemma iter_shr_1_divides (p : positive) : forall mrs,
  (0 <= shr_m mrs)%Z ->
  shr_m (iter_pos shr_1 p mrs) = (shr_m mrs / 2 ^ Zpos p)%Z.
Proof.
  assert (Hpow : forall k, (0 < 2 ^ Zpos k)%Z) by (intros; apply Z.pow_pos_nonneg; lia).
  assert (Hnn : forall m k, (0 <= m)%Z -> (0 <= m / 2 ^ Zpos k)%Z).
  { intros. apply Z.div_pos; [assumption|apply Hpow]. }
  induction p as [p IH|p IH|]; intros mrs H; simpl iter_pos.
  - assert (H1 : (0 <= shr_m (shr_1 mrs))%Z).
    { rewrite shr_1_halves by assumption. apply Z.div_pos; lia. }
    assert (H2 : (0 <= shr_m (iter_pos shr_1 p (shr_1 mrs)))%Z).
    { rewrite IH by assumption. apply Hnn. assumption. }
    rewrite IH, IH, shr_1_halves by assumption.
    pose proof (Hpow p).
    rewrite !Z.div_div by lia.
    f_equal.
    replace (Zpos p~1) with (1 + Zpos p + Zpos p)%Z by lia.
    rewrite !Z.pow_add_r by lia. lia.
  - assert (H2 : (0 <= shr_m (iter_pos shr_1 p mrs))%Z).
    { rewrite IH by assumption. apply Hnn. assumption. }
    rewrite IH, IH by assumption.
    pose proof (Hpow p).
    rewrite !Z.div_div by lia.
    f_equal.
    replace (Zpos p~0) with (Zpos p + Zpos p)%Z by lia.
    rewrite !Z.pow_add_r by lia. lia.
  - rewrite shr_1_halves by assumption. reflexivity.
Qed.

(** Shifting to the binary64 exponent keeps a positive mantissa positive,
    as long as the exponent is not below the smallest one. *)
Lemma shr_fexp_positive (m e : Z) (l : location) :
  (0 < m)%Z -> (SpecFloat.emin prec emax <= e)%Z ->
  (0 < shr_m (fst (shr_fexp prec emax m e l)))%Z /\
  (SpecFloat.emin prec emax <= snd (shr_fexp prec emax m e l))%Z.
Proof.
  intros Hm He. unfold shr_fexp, shr.
  assert (Hrec : shr_m (shr_record_of_loc m l) = m).
  { destruct l as [|[]]; reflexivity. }
  destruct (SpecFloat.fexp prec emax (Zdigits2 m + e) - e)%Z as [|p|p] eqn:En;
    cbn [fst snd]; try (rewrite Hrec; split; lia).
  rewrite iter_shr_1_divides by (rewrite Hrec; lia). rewrite Hrec.
  destruct m as [|pm|pm]; try lia.
  simpl Zdigits2 in En. unfold SpecFloat.fexp in En.
  pose proof (digits2_pos_bounds pm) as [Lo _].
  assert (Hp : Zpos p = (Zpos (digits2_pos pm) - prec)%Z) by lia.
  split; [|lia].
  apply Z.div_str_pos. split; [apply Z.pow_pos_nonneg; lia|].
  eapply Z.le_trans; [|exact Lo]. apply Z.pow_le_mono_r; [lia|]. unfold prec in *. lia.
Qed.

Lemma round_nearest_even_positive (m : Z) (l : location) :
  (0 < m)%Z -> (0 < round_nearest_even m l)%Z.
Proof.
  intros H. destruct l as [|[]]; simpl; try lia. destruct (Z.even m); lia.
Qed.

Lemma round_aux_positive (m e : Z) (l : location) :
  (0 < m)%Z -> (SpecFloat.emin prec emax <= e)%Z ->
  SFltb (S754_zero false) (binary_round_aux prec emax false m e l) = true.
Proof.
  intros Hm He. unfold binary_round_aux.
  pose proof (shr_fexp_positive m e l Hm He) as [H1 H1e].
  destruct (shr_fexp prec emax m e l) as [mrs e']. cbn [fst snd] in *.
  pose proof (shr_fexp_positive _ e' loc_Exact
                (round_nearest_even_positive _ (loc_of_shr_record mrs) H1) H1e)
    as [H2 _].
  destruct (shr_fexp prec emax _ e' loc_Exact) as [mrs' e'']. cbn [fst] in H2.
  destruct (shr_m mrs'); try lia.
  destruct (e'' <=? emax - prec)%Z; reflexivity.
Qed.

Lemma normalize_positive (D e : Z) :
  (0 < D)%Z -> (SpecFloat.emin prec emax <= e)%Z ->
  SFltb (S754_zero false) (binary_normalize prec emax D e false) = true.
Proof.
  intros HD He. destruct D as [|d|d]; try lia. simpl.
  unfold binary_round, shl_align.
  destruct (SpecFloat.fexp prec emax (Zpos (digits2_pos d) + e) - e)%Z as [|p|p] eqn:E;
    apply round_aux_positive; try lia.
  unfold SpecFloat.fexp in *. lia.
Qed.

(** The exponent of a canonical number is at least the smallest one, its
    mantissa is below 2^53, and above the smallest exponent it is full. *)
Lemma canonical_facts (m : positive) (e : Z) :
  bounded prec emax m e = true ->
  (SpecFloat.emin prec emax <= e)%Z /\ (Zpos m < 2 ^ 53)%Z /\
  ((SpecFloat.emin prec emax < e)%Z -> (2 ^ 52 <= Zpos m)%Z).
Proof.
  unfold bounded, canonical_mantissa, SpecFloat.fexp. intros H.
  apply andb_true_iff in H. destruct H as [C _]. apply Z.eqb_eq in C.
  pose proof (digits2_pos_bounds m) as [Lo Up].
  split; [lia|]. split.
  - eapply Z.lt_le_trans; [exact Up|]. apply Z.pow_le_mono_r; unfold prec in *; lia.
  - intros He. assert (Hd : Zpos (digits2_pos m) = 53%Z) by (unfold prec in *; lia).
    rewrite Hd in Lo. exact Lo.
Qed.

(** Of two canonical numbers, the one with the smaller exponent, or with the
    same exponent and the smaller mantissa, has the smaller aligned mantissa. *)
Lemma aligned_lt (mx my : positive) (ex ey : Z) :
  bounded prec emax mx ex = true -> bounded prec emax my ey = true ->
  ((ex < ey)%Z \/ (ex = ey /\ (mx < my)%positive)) ->
  (Zpos (fst (shl_align mx ex (Z.min ex ey)))
   < Zpos (fst (shl_align my ey (Z.min ex ey))))%Z.
Proof.
  intros BX BY H.
  destruct (canonical_facts mx ex BX) as (Ex & Ux & _).
  destruct (canonical_facts my ey BY) as (Ey & _ & Ly).
  unfold shl_align. destruct H as [H|[H Hm]].
  - rewrite Z.min_l by lia. rewrite Z.sub_diag. cbn [fst].
    destruct (ex - ey)%Z as [|d|d] eqn:Ed; try lia. cbn [fst].
    rewrite iter_xO_pow.
    assert (Hd : (2 ^ 1 <= 2 ^ Zpos d)%Z) by (apply Z.pow_le_mono_r; lia).
    specialize (Ly ltac:(lia)).
    change (2 ^ 52)%Z with 4503599627370496%Z in Ly.
    change (2 ^ 53)%Z with 9007199254740992%Z in Ux.
    change (2 ^ 1)%Z with 2%Z in Hd. nia.
  - subst ey. rewrite Z.min_id, Z.sub_diag. cbn [fst]. lia.
Qed.

Lemma SFsub_positive (X Y : spec_float) :
  valid_binary X = true -> valid_binary Y = true ->
  SFltb X Y = true ->
  SFltb (S754_zero false) (SF64sub Y X) = true.
Proof.
  intros VX VY H.
  destruct X as [sx|sx| |sx mx ex]; destruct Y as [sy|sy| |sy my ey];
    try destruct sx; try destruct sy; try discriminate H; try reflexivity.
  all: unfold valid_binary in VX, VY; simpl in VX, VY.
  all: unfold SF64sub, SFsub, cond_Zopp.
  all: pose proof (canonical_facts mx ex VX) as (Ex & _ & _).
  all: pose proof (canonical_facts my ey VY) as (Ey & _ & _).
  all: apply normalize_positive; [|lia].
  - (* both negative: y is the smaller in magnitude *)
    unfold SFltb, SFcompare in H.
    assert (A : (ey < ex)%Z \/ (ey = ex /\ (my < mx)%positive)).
    { destruct (Z.compare_spec ex ey) as [E|E|E]; try discriminate H; [right|left; lia].
      split; [lia|]. rewrite Pos.compare_cont_spec in H. unfold Pos.switch_Eq in H.
      destruct (Pos.compare_spec mx my) as [C|C|C]; try discriminate H. exact C. }
    pose proof (aligned_lt my mx ey ex VY VX A) as L. lia.
  - (* x negative, y positive *) lia.
  - (* both positive *)
    unfold SFltb, SFcompare in H.
    assert (A : (ex < ey)%Z \/ (ex = ey /\ (mx < my)%positive)).
    { destruct (Z.compare_spec ex ey) as [E|E|E]; try discriminate H; [right|left; lia].
      split; [lia|]. rewrite Pos.compare_cont_spec in H. unfold Pos.switch_Eq in H.
      destruct (Pos.compare_spec mx my) as [C|C|C]; try discriminate H. exact C. }
    pose proof (aligned_lt mx my ex ey VX VY A) as L.
    rewrite (Z.min_comm ex ey) in L. lia.
Qed.

(** Whenever [x < y] holds, the computed difference [y - x] is strictly
    positive: binary64 subtraction never rounds a shortfall to zero. *)
Lemma sub_positive (x y : float) :
  (x <? y) = true -> (0 <? y - x) = true.
Proof.
  rewrite !ltb_spec, sub_spec. change (Prim2SF 0) with (S754_zero false).
  apply SFsub_positive; apply Prim2SF_valid.
Qed.

End ShortfallFacts.

(** ** Runs of the purchase dialog *)

Section DialogRuns.

Import BuyDeckDialog.
Local Open Scope float_scope.

Variable user : option User.

Lemma run_snoc (ops : list Op) (op : Op) (s : Session) :
  run user (ops ++ [op]) s = step user (run user ops s) op.
Proof. unfold run. rewrite fold_left_app. reflexivity. Qed.

(** The button is disabled exactly while a purchase is in flight. *)
Lemma flag_follows_purchase (ops : list Op) :
  isPurchasing (dialog (run user ops initialSession))
  = match awaiting (run user ops initialSession) with
    | Some _ => true
    | None => false
    end.
Proof.
  induction ops as [|op ops IH] using rev_ind; [reflexivity|].
  rewrite run_snoc. set (s := run user ops initialSession) in *.
  destruct op as [b|deck|o| |]; cbn [step].
  - destruct user; [|exact IH]. exact IH.
  - destruct (isPurchasing (dialog s)) eqn:Hp; [rewrite Hp; exact IH|].
    unfold handlePurchase_begin. destruct user as [u|].
    + destruct (invalidPrice deck); [cbn; exact IH|].
      destruct (userBalance (setIsPurchasing true (dialog s)) <? price deck);
        [cbn; exact IH|reflexivity].
    + cbn. rewrite Hp. exact IH.
  - destruct (awaiting s) as [deck|] eqn:Ha; [|rewrite Ha; exact IH].
    destruct o; reflexivity.
  - destruct (isPurchasing (dialog s)) eqn:Hp; [rewrite Hp; exact IH|].
    cbn. rewrite Hp. exact IH.
  - exact IH.
Qed.

(** Every purchase call on record was made for the signed-in user, with the
    id and the price of a deck whose price passed validation. *)
Lemma calls_are_valid (ops : list Op) :
  Forall (valid_call user) (calls (dialog (run user ops initialSession))).
Proof.
  induction ops as [|op ops IH] using rev_ind; [constructor|].
  rewrite run_snoc. set (s := run user ops initialSession) in *.
  destruct op as [b|deck|o| |]; cbn [step].
  - destruct user; exact IH.
  - destruct (isPurchasing (dialog s)); [exact IH|].
    unfold handlePurchase_begin. destruct user as [u|]; [|exact IH].
    destruct (invalidPrice deck) eqn:Hv; [exact IH|].
    destruct (userBalance (setIsPurchasing true (dialog s)) <? price deck);
      [exact IH|].
    cbn. apply Forall_app. split; [exact IH|].
    constructor; [|constructor]. exists u, deck. repeat split. exact Hv.
  - destruct (awaiting s); [|exact IH]. destruct o; exact IH.
  - destruct (isPurchasing (dialog s)); exact IH.
  - exact IH.
Qed.

Lemma successes_toast (t : Toast) (d : Dialog) :
  successes (toast t d) = (successes d + if is_success t then 1 else 0)%nat.
Proof.
  unfold successes, toast. cbn [toasts]. rewrite filter_app, length_app.
  cbn [filter]. destruct (is_success t); reflexivity.
Qed.

Lemma count_snoc (f : Op -> bool) (ops : list Op) (op : Op) :
  List.length (filter f (ops ++ [op]))
  = (List.length (filter f ops) + if f op then 1 else 0)%nat.
Proof. rewrite filter_app, length_app. cbn [filter]. destruct (f op); reflexivity. Qed.

(** Every call of [onClose] is accounted for: one per reported success, one
    per open-change request, and at most one per click on Cancel.  Each
    reported success and the purchase in flight answer to a call of their
    own. *)
Lemma closes_accounted_for (ops : list Op) :
  let s := run user ops initialSession in
  (successes (dialog s) + open_changes ops <= onClose_calls (dialog s))%nat /\
  (onClose_calls (dialog s) <= successes (dialog s) + open_changes ops + cancels ops)%nat /\
  (successes (dialog s) + match awaiting s with Some _ => 1 | None => 0 end
   <= List.length (calls (dialog s)))%nat.
Proof.
  induction ops as [|op ops IH] using rev_ind; [cbn; lia|].
  cbv zeta in *. rewrite run_snoc. unfold open_changes, cancels in *.
  rewrite !count_snoc.
  pose proof (flag_follows_purchase ops) as Hflag.
  set (s := run user ops initialSession) in *.
  destruct IH as (IH1 & IH2 & IH3).
  destruct op as [b|deck|o| |]; cbn [step].
  - destruct user; cbn [dialog awaiting setUserBalance onClose_calls calls];
      unfold successes in *; cbn [toasts setUserBalance]; lia.
  - destruct (isPurchasing (dialog s)) eqn:Hp; [lia|].
    destruct (awaiting s) eqn:Ha; [discriminate Hflag|].
    unfold handlePurchase_begin. destruct user as [u|].
    + destruct (invalidPrice deck).
      * cbn [dialog awaiting]. unfold successes in *. cbn. rewrite filter_app, length_app.
        cbn. lia.
      * destruct (userBalance (setIsPurchasing true (dialog s)) <? price deck).
        -- cbn [dialog awaiting]. unfold successes in *. cbn.
           rewrite filter_app, length_app. cbn. lia.
        -- cbn [dialog awaiting]. unfold successes in *. cbn.
           rewrite length_app. cbn. lia.
    + cbn [dialog awaiting]. unfold successes in *. cbn.
      rewrite filter_app, length_app. cbn. lia.
  - destruct (awaiting s) as [deck|] eqn:Ha; [|rewrite Ha; lia].
    destruct o as [[]|m]; cbn [dialog awaiting]; unfold successes in *; cbn;
      rewrite filter_app, length_app; cbn; lia.
  - destruct (isPurchasing (dialog s)); [lia|].
    cbn [dialog awaiting]. unfold successes in *. cbn. lia.
  - cbn [dialog awaiting]. unfold successes in *. cbn. lia.
Qed.

End DialogRuns.

(** X1: in every run of [BuyDeckDialog], with any interleaving of balance
    loads, clicks and purchase results, [isPurchasing] is true exactly while a
    purchase call is in flight; a click made meanwhile changes nothing, so a
    second [purchaseDeck] call is never issued before the first has settled. *)
Theorem X1_button_disabled_while_purchase_in_flight
    (user : option User) (ops : list BuyDeckDialog.Op) :
  let s := BuyDeckDialog.run user ops BuyDeckDialog.initialSession in
  (isPurchasing (BuyDeckDialog.dialog s) = true <-> BuyDeckDialog.awaiting s <> None) /\
  (BuyDeckDialog.awaiting s <> None ->
   forall deck, BuyDeckDialog.step user s (BuyDeckDialog.Click deck) = s).
Proof.
  cbv zeta. pose proof (flag_follows_purchase user ops) as H.
  destruct (BuyDeckDialog.awaiting _) as [deck|] eqn:Ha.
  - split; [split; [discriminate|intros _; exact H]|].
    intros _ deck'. cbn [BuyDeckDialog.step]. rewrite H. reflexivity.
  - split; [split; [rewrite H; discriminate|intros C; contradiction]|].
    intros C. contradiction.
Qed.

(** X2: every purchase call that [BuyDeckDialog] has issued, in any run, was
    made for the signed-in user and carries the id and the price of a deck
    whose price is a number strictly above zero: a deck priced 0, negative or
    [NaN] is never purchased, and nothing is purchased while signed out. *)
Theorem X2_only_priced_decks_are_purchased
    (user : option User) (ops : list BuyDeckDialog.Op) (c : Call) :
  In c (calls (BuyDeckDialog.dialog
                 (BuyDeckDialog.run user ops BuyDeckDialog.initialSession))) ->
  exists u deck,
    user = Some u /\
    c = PurchaseDeck (uid u) (deck_id deck) (price deck) /\
    (0 <? price deck)%float = true.
Proof.
  intros Hin. pose proof (calls_are_valid user ops) as H.
  rewrite Forall_forall in H. destruct (H c Hin) as (u & deck & Hu & Hv & Hc).
  exists u, deck. repeat split; try assumption.
  apply valid_price_positive. exact Hv.
Qed.

(** The one call of a purchase at balance 25. *)
Lemma X2_only_priced_decks_are_purchased_witness :
  exists u deck,
    Some alice = Some u /\
    PurchaseDeck "alice" "deck-1" 10%float
    = PurchaseDeck (uid u) (deck_id deck) (price deck) /\
    (0 <? price deck)%float = true.
Proof.
  apply (X2_only_priced_decks_are_purchased (Some alice)
           [BuyDeckDialog.Load 25%float; BuyDeckDialog.Click deck10]).
  left. reflexivity.
Defined.

(** X3: in every run of [BuyDeckDialog] every call of [onClose] is accounted
    for.  It has been called once per "Purchase successful" toast and once
    per open-change request of the [Dialog], and beyond these at most once per
    click on Cancel (that button is disabled while a purchase is in flight):
    [handlePurchase] itself calls [onClose] exactly when it reports success.
    The successes reported plus the purchase in flight never outnumber the
    [purchaseDeck] calls issued. *)
Theorem X3_every_close_is_accounted_for
    (user : option User) (ops : list BuyDeckDialog.Op) :
  let s := BuyDeckDialog.run user ops BuyDeckDialog.initialSession in
  (successes (BuyDeckDialog.dialog s) + open_changes ops
   <= onClose_calls (BuyDeckDialog.dialog s))%nat /\
  (onClose_calls (BuyDeckDialog.dialog s)
   <= successes (BuyDeckDialog.dialog s) + open_changes ops + cancels ops)%nat /\
  (successes (BuyDeckDialog.dialog s)
   + match BuyDeckDialog.awaiting s with Some _ => 1 | None => 0 end
   <= List.length (calls (BuyDeckDialog.dialog s)))%nat.
Proof. exact (closes_accounted_for user ops). Qed.

(** X4: signed out, the dialog never purchases.  Whatever the run, no call
    is issued, the balance stays at its initial 0 (a load is skipped), the
    buttons are never disabled, each click on the purchase button adds one
    destructive "Sign in required" toast, and [onClose] is called once per
    click on Cancel and once per open-change request. *)
Theorem X4_signed_out_dialog_never_purchases (ops : list BuyDeckDialog.Op) :
  BuyDeckDialog.run None ops BuyDeckDialog.initialSession
  = {| BuyDeckDialog.dialog :=
         {| userBalance := 0%float; isPurchasing := false;
            toasts := repeat {| title := "Sign in required";
                                description := Text "Please sign in to purchase this deck";
                                variant := Destructive |} (clicks ops);
            calls := []; onClose_calls := (cancels ops + open_changes ops)%nat;
            console_error := []; location_href := None |};
       BuyDeckDialog.awaiting := None |}.
Proof.
  induction ops as [|op ops IH] using rev_ind; [reflexivity|].
  rewrite run_snoc, IH. unfold clicks, cancels, open_changes.
  rewrite !filter_app, !length_app.
  destruct op as [b|deck|o| |]; cbn; rewrite ?Nat.add_0_r; try reflexivity.
  - rewrite Nat.add_1_r. cbn [repeat]. rewrite repeat_cons. reflexivity.
  - unfold onClose. cbn. do 2 f_equal. lia.
  - unfold onClose. cbn. do 2 f_equal. lia.
Qed.

(** X5: whenever the balance is strictly below the price, the computed
    shortfall [price - balance] is strictly positive: binary64 subtraction
    never rounds it to zero.  This is the amount shown by the "Insufficient
    balance" toast of [BuyDeckDialog.tsx] and the amount for which the
    recharge variant requests a checkout session. *)
Theorem X5_shortfall_is_strictly_positive (u : User) (deck : Deck) (d : Dialog) :
  (userBalance d <? price deck)%float = true ->
  (0 <? price deck - userBalance d)%float = true /\
  (invalidPrice deck = false ->
   forall o,
     toasts (BuyDeckDialog.handlePurchase (Some u) deck o d)
     = (toasts d ++ [{| title := "Insufficient balance";
                        description := NeedMore (price deck - userBalance d)%float;
                        variant := Destructive |}])%list) /\
  calls (fst (BuyDeckDialogRecharge.onClick (Some u) deck d))
  = (calls d ++ [CreateCreditCheckoutSession (uid u)
                   (price deck - userBalance d)%float])%list.
Proof.
  intros Hc. split; [apply sub_positive; exact Hc|]. split.
  - intros Hv o. destruct (begin_insufficient u deck d Hv Hc) as [H1 _].
    unfold BuyDeckDialog.handlePurchase. rewrite H1. reflexivity.
  - unfold BuyDeckDialogRecharge.onClick. rewrite Hc. reflexivity.
Qed.

(** Balance 9.99 against a price of 10. *)
Lemma X5_shortfall_is_strictly_positive_witness :
  (0 <? price deck10 - userBalance (withBalance 9.99%float))%float = true.
Proof.
  apply (X5_shortfall_is_strictly_positive alice deck10 (withBalance 9.99%float)).
  reflexivity.
Defined.

(** X6: the button of the recharge variant tests [userBalance < deck.price]
    itself before choosing its handler.  So when it hands over to
    [handlePurchase], that function's own balance test cannot succeed: from
    the button, [handlePurchase] never starts a recharge; and a recharge
    started from the button leaves [isPurchasing] untouched, so the button
    stays enabled while the checkout session is being created. *)
Theorem X6_button_dispatch (user : option User) (deck : Deck) (d : Dialog) :
  ((userBalance d <? price deck)%float = false ->
   BuyDeckDialogRecharge.onClick user deck d
   = BuyDeckDialogRecharge.handlePurchase_begin user deck d /\
   snd (BuyDeckDialogRecharge.onClick user deck d) <> Some AwaitCheckout) /\
  (snd (BuyDeckDialogRecharge.onClick user deck d) = Some AwaitCheckout ->
   (userBalance d <? price deck)%float = true /\
   isPurchasing (fst (BuyDeckDialogRecharge.onClick user deck d)) = isPurchasing d /\
   toasts (fst (BuyDeckDialogRecharge.onClick user deck d)) = toasts d).
Proof.
  unfold BuyDeckDialogRecharge.onClick.
  destruct (userBalance d <? price deck)%float eqn:Hc.
  - split; [discriminate|]. intros H. split; [reflexivity|].
    unfold BuyDeckDialogRecharge.handleRecharge_begin in *.
    destruct user; [split; reflexivity|discriminate H].
  - assert (Hno : snd (BuyDeckDialogRecharge.handlePurchase_begin user deck d)
                  <> Some AwaitCheckout).
    { unfold BuyDeckDialogRecharge.handlePurchase_begin.
      destruct user; [|discriminate].
      destruct (invalidPrice deck); [discriminate|].
      cbn [userBalance setIsPurchasing]. rewrite Hc. discriminate. }
    split; [intros _; split; [reflexivity|exact Hno]|].
    intros H. contradiction.
Qed.

(** X7: recharge clicks are not debounced.  The button is disabled only by
    [isPurchasing], which a recharge never sets.  So with the flag off and the
    balance below the price, each click on the button of the recharge variant
    requests one more checkout session for the same amount, whatever is still
    pending: [n] clicks issue [n] [createCreditCheckoutSession] calls, and
    the flag, the balance and the toasts stay as they are.  With the flag
    on, a click does nothing. *)
Theorem X7_each_recharge_click_requests_a_session
    (u : User) (deck : Deck) (d : Dialog) (n : nat) :
  (userBalance d <? price deck)%float = true ->
  (isPurchasing d = false ->
   let d' := Nat.iter n (fun d => fst (BuyDeckDialogRecharge.click (Some u) deck d)) d in
   calls d' = (calls d ++ repeat (CreateCreditCheckoutSession (uid u)
                                    (price deck - userBalance d)%float) n)%list /\
   isPurchasing d' = false /\ userBalance d' = userBalance d /\
   toasts d' = toasts d) /\
  (isPurchasing d = true ->
   Nat.iter n (fun d => fst (BuyDeckDialogRecharge.click (Some u) deck d)) d = d).
Proof.
  intros Hc. split.
  - intros Hp. cbv zeta. induction n as [|n IH].
    + cbn. rewrite app_nil_r. repeat split. exact Hp.
    + rewrite Nat.iter_succ. destruct IH as (Hcalls & Hp' & Hb & Ht).
      set (dn := Nat.iter n _ d) in *.
      unfold BuyDeckDialogRecharge.click, BuyDeckDialogRecharge.onClick.
      rewrite Hp', Hb, Hc.
      cbn. rewrite Hcalls, Hb, Hp', Ht, <- app_assoc.
      replace (repeat _ n ++ [_])%list
        with (repeat (CreateCreditCheckoutSession (uid u)
                        (price deck - userBalance d)%float) (S n)).
      * repeat split.
      * cbn [repeat]. apply repeat_cons.
  - intros Hp. induction n as [|n IH]; [reflexivity|].
    rewrite Nat.iter_succ, IH. unfold BuyDeckDialogRecharge.click. rewrite Hp.
    reflexivity.
Qed.

(** Two clicks at balance 4 on a deck priced 10. *)
Lemma X7_each_recharge_click_requests_a_session_witness :
  calls (Nat.iter 2 (fun d => fst (BuyDeckDialogRecharge.click (Some alice) deck10 d))
           (withBalance 4%float))
  = [CreateCreditCheckoutSession "alice" 6%float;
     CreateCreditCheckoutSession "alice" 6%float].
Proof.
  destruct (X7_each_recharge_click_requests_a_session alice deck10
              (withBalance 4%float) 2 eq_refl) as [H _].
  apply H. reflexivity.
Defined.

(** ** More on the webhook handlers and the sessions they complete *)

(** X8: the [stripe.ts] webhook calls [purchaseDeck] only for a request that
    verified, whose event is a [checkout.session.completed] and whose session
    carries metadata, and then with the [userId] and [deckId] read from that
    metadata, in this order; it never calls it more than once per request. *)
Theorem X8_purchaseDeck_only_for_verified_completed_checkout
    (constructEvent : ReqBody -> option string -> string -> Event + string)
    (secret : string) (req : Request) (purchased : Outcome unit)
    (userId deckId : option string) :
  In (CallPurchaseDeck userId deckId)
     (effects (StripeTs.webhook constructEvent secret req purchased)) ->
  (exists event md,
      constructEvent (req_body req) (stripe_signature req) secret = inl event /\
      event_type event = "checkout.session.completed" /\
      metadata_of (data_object event) = Some md /\
      userId = lookup "userId" md /\ deckId = lookup "deckId" md) /\
  (List.length (mutations (StripeTs.webhook constructEvent secret req purchased)) <= 1)%nat.
Proof.
  unfold StripeTs.webhook, StripeTs.handle_event.
  destruct (constructEvent _ _ _) as [event|message] eqn:Hv;
    [|intros [H|[]]; discriminate H].
  destruct (String.eqb_spec (event_type event) "checkout.session.completed") as [Ht|Ht];
    [|intros []].
  destruct (metadata_of (data_object event)) as [md|] eqn:Hm;
    [|intros [H|[]]; discriminate H].
  destruct purchased; intros [H|[H|[]]]; try discriminate H;
    injection H as <- <-;
    (split; [exists event, md; repeat split; assumption|cbn; lia]).
Qed.

(** The completed checkout of deck-1 by alice. *)
Lemma X8_purchaseDeck_only_for_verified_completed_checkout_witness :
  exists event md,
    verifyWith deckEvent (req_body signedRequest) (stripe_signature signedRequest) "whsec"
    = inl event /\
    event_type event = "checkout.session.completed" /\
    metadata_of (data_object event) = Some md /\
    Some "alice" = lookup "userId" md /\ Some "deck-1" = lookup "deckId" md.
Proof.
  apply (X8_purchaseDeck_only_for_verified_completed_checkout
           (verifyWith deckEvent) "whsec" signedRequest (Resolves tt)
           (Some "alice") (Some "deck-1")).
  left. reflexivity.
Defined.

(** X9: to a verified event the [stripe.ts] webhook answers either
    [{received: true}] or 500 "Failed to process purchase", and it answers 500
    exactly when the event is a completed checkout whose session has no
    metadata or whose [purchaseDeck] call rejected.  Every other verified
    event, of whatever type, is acknowledged without any effect. *)
Theorem X9_stripe_ts_retry_exactly_when_purchase_failed
    (constructEvent : ReqBody -> option string -> string -> Event + string)
    (secret : string) (req : Request) (purchased : Outcome unit) (event : Event) :
  constructEvent (req_body req) (stripe_signature req) secret = inl event ->
  let h := StripeTs.webhook constructEvent secret req purchased in
  (response h = json JsonReceived \/
   response h = {| status := 500; body := Send "Failed to process purchase" |}) /\
  (status (response h) = 500 <->
   event_type event = "checkout.session.completed" /\
   (metadata_of (data_object event) = None \/ exists m, purchased = Rejects m)) /\
  (event_type event <> "checkout.session.completed" -> effects h = []).
Proof.
  intros Hv. cbv zeta. unfold StripeTs.webhook, StripeTs.handle_event. rewrite Hv.
  destruct (String.eqb_spec (event_type event) "checkout.session.completed") as [Ht|Ht].
  - destruct (metadata_of (data_object event)) as [md|].
    + destruct purchased as [[]|m].
      * split; [left; reflexivity|]. split; [|intros C; contradiction].
        split; [discriminate|].
        intros [_ [C|[m C]]]; discriminate C.
      * split; [right; reflexivity|]. split; [|intros C; contradiction].
        split; [intros _; split; [exact Ht|right; exists m; reflexivity]|reflexivity].
    + split; [right; reflexivity|]. split; [|intros C; contradiction].
      split; [intros _; split; [exact Ht|left; reflexivity]|reflexivity].
  - split; [left; reflexivity|]. split; [|reflexivity].
    split; [discriminate|]. intros [C _]. contradiction.
Qed.

(** A completed checkout whose purchase call rejects. *)
Lemma X9_stripe_ts_retry_exactly_when_purchase_failed_witness :
  status (response (StripeTs.webhook (verifyWith deckEvent) "whsec" signedRequest
                      (Rejects None))) = 500.
Proof.
  destruct (X9_stripe_ts_retry_exactly_when_purchase_failed
              (verifyWith deckEvent) "whsec" signedRequest (Rejects None) deckEvent
              eq_refl) as (_ & [_ H] & _).
  apply H. split; [reflexivity|]. right. exists None. reflexivity.
Defined.

(** X10: to a verified event the [api.js] webhook writes one console line,
    makes no mutation, and answers [{received: true}], whatever the event
    type, known or not; the one exception is a completed checkout whose
    session has no metadata, which is answered 500. *)
Theorem X10_api_webhook_acknowledges_every_event
    (constructEvent : ReqBody -> option string -> string -> Event + string)
    (secret : string) (req : Request) (event : Event) :
  constructEvent (req_body req) (stripe_signature req) secret = inl event ->
  let h := ApiJs.webhook constructEvent secret req in
  mutations h = [] /\ List.length (effects h) = 1%nat /\
  (status (response h) = 500 <->
   event_type event = "checkout.session.completed" /\
   metadata_of (data_object event) = None) /\
  (status (response h) <> 500 -> response h = json JsonReceived).
Proof.
  intros Hv. cbv zeta. unfold ApiJs.webhook, ApiJs.handle_event. rewrite Hv.
  destruct (String.eqb_spec (event_type event) "checkout.session.completed") as [Ht|Ht].
  - destruct (metadata_of (data_object event)) as [md|].
    + repeat split; try reflexivity; try discriminate.
      intros [_ C]. discriminate C.
    + repeat split; try reflexivity; try assumption.
      intros C. exfalso. apply C. reflexivity.
  - destruct (String.eqb (event_type event) "account.updated");
      repeat split; try reflexivity; try discriminate;
      intros [C _]; contradiction.
Qed.

(** An event of a type the handler does not know. *)
Lemma X10_api_webhook_acknowledges_every_event_witness :
  response (ApiJs.webhook
              (verifyWith {| event_id := "evt_3"; event_type := "payout.paid";
                             data_object := OtherObject |})
              "whsec" signedRequest)
  = json JsonReceived.
Proof.
  destruct (X10_api_webhook_acknowledges_every_event
              (verifyWith {| event_id := "evt_3"; event_type := "payout.paid";
                             data_object := OtherObject |})
              "whsec" signedRequest _ eq_refl) as (_ & _ & _ & H).
  apply H. discriminate.
Defined.

(** X11: a deck checkout round trip in [stripe.ts].  When the completed
    event carries the metadata that [/create-checkout-session] attached for
    [deckId] and [userId], the webhook calls [purchaseDeck] for exactly that
    user and that deck, whatever the two ids are. *)
Theorem X11_deck_checkout_round_trip
    (deckId userId deckTitle : string) (price : Js.number)
    (created : Outcome (option string)) (params : CheckoutParams)
    (constructEvent : ReqBody -> option string -> string -> Event + string)
    (secret : string) (req : Request) (event : Event) (purchased : Outcome unit) :
  In (StripeCheckoutSessionsCreate params)
     (effects (StripeTs.create_checkout_session deckId userId deckTitle price created)) ->
  constructEvent (req_body req) (stripe_signature req) secret = inl event ->
  event_type event = "checkout.session.completed" ->
  metadata_of (data_object event) = Some (metadata params) ->
  mutations (StripeTs.webhook constructEvent secret req purchased)
  = [CallPurchaseDeck (Some userId) (Some deckId)].
Proof.
  intros Hin Hv Ht Hm.
  rewrite (ts_completed_mutations _ _ _ _ _ _ Hv Ht Hm).
  assert (Hp : metadata params = [("deckId", deckId); ("userId", userId)]).
  { unfold StripeTs.create_checkout_session in Hin.
    destruct created; cbn in Hin;
      repeat (destruct Hin as [Hin|Hin]; [try discriminate Hin|]);
      try contradiction; injection Hin as <-; reflexivity. }
  rewrite Hp. reflexivity.
Qed.

(** The session created for alice and deck-1, completed. *)
Lemma X11_deck_checkout_round_trip_witness :
  mutations (StripeTs.webhook (verifyWith deckEvent) "whsec" signedRequest (Resolves tt))
  = [CallPurchaseDeck (Some "alice") (Some "deck-1")].
Proof.
  apply (X11_deck_checkout_round_trip "deck-1" "alice" "Deck" 10%float
           (Resolves None)
           {| currency := "usd"; product_name := "Deck";
              unit_amount := Js.Math_round (10 * 100)%float;
              quantity := 1; mode := "payment";
              metadata := [("deckId", "deck-1"); ("userId", "alice")] |}
           (verifyWith deckEvent) "whsec" signedRequest deckEvent (Resolves tt));
    try reflexivity.
  left. reflexivity.
Defined.

(** X12: a recharge checkout round trip across the two files.  When the
    completed event carries the metadata that the [api.js]
    [/create-checkout-session] attached for [userId], the [api.js] webhook
    logs that user with the type "recharge"; the [stripe.ts] webhook, given
    the same event, calls [purchaseDeck] for that user with an undefined deck
    id, since the recharge metadata has no [deckId]. *)
Theorem X12_recharge_checkout_round_trip
    (userId : string) (amount : Js.number)
    (created : Outcome (option string)) (params : CheckoutParams)
    (constructEvent : ReqBody -> option string -> string -> Event + string)
    (secret : string) (req : Request) (event : Event) (purchased : Outcome unit) :
  In (StripeCheckoutSessionsCreate params)
     (effects (ApiJs.create_checkout_session userId amount created)) ->
  constructEvent (req_body req) (stripe_signature req) secret = inl event ->
  event_type event = "checkout.session.completed" ->
  metadata_of (data_object event) = Some (metadata params) ->
  effects (ApiJs.webhook constructEvent secret req)
  = [ConsoleLog (CheckoutComplete (Some userId) (Some "recharge")
                   (amount_of (data_object event)))] /\
  mutations (StripeTs.webhook constructEvent secret req purchased)
  = [CallPurchaseDeck (Some userId) None].
Proof.
  intros Hin Hv Ht Hm.
  assert (Hp : metadata params = [("userId", userId); ("type", "recharge")]).
  { unfold ApiJs.create_checkout_session in Hin.
    destruct created; cbn in Hin;
      repeat (destruct Hin as [Hin|Hin]; [try discriminate Hin|]);
      try contradiction; injection Hin as <-; reflexivity. }
  split.
  - unfold ApiJs.webhook, ApiJs.handle_event. rewrite Hv, Ht, Hm, Hp. reflexivity.
  - rewrite (ts_completed_mutations _ _ _ _ _ _ Hv Ht Hm), Hp. reflexivity.
Qed.

(** The recharge session created for alice, completed. *)
Lemma X12_recharge_checkout_round_trip_witness :
  mutations (StripeTs.webhook (verifyWith rechargeEvent) "whsec" signedRequest
               (Resolves tt))
  = [CallPurchaseDeck (Some "alice") None].
Proof.
  apply (X12_recharge_checkout_round_trip "alice" 200%float (Resolves None)
           {| currency := "eur"; product_name := "Add Credits to your balance";
              unit_amount := Js.Math_round (200 * 100)%float;
              quantity := 1; mode := "payment";
              metadata := [("userId", "alice"); ("type", "recharge")] |}
           (verifyWith rechargeEvent) "whsec" signedRequest rechargeEvent (Resolves tt));
    try reflexivity.
  left. reflexivity.
Defined.

(** X22: a request for which [constructEvent] throws is answered 400 with
    the error message by both route handlers, after a [console.error] and
    nothing else: no event is dispatched and no mutation is made.  A handler
    answers 400 exactly when [constructEvent] throws, and what it does
    otherwise is the handling of the event that [constructEvent] returned.
    This is about the handlers, whatever [req.body] the middleware before
    them has left. *)
Theorem X22_handlers_answer_400_when_constructEvent_throws
    (constructEvent : ReqBody -> option string -> string -> Event + string)
    (secret : string) (req : Request) :
  (forall message,
      constructEvent (req_body req) (stripe_signature req) secret = inr message ->
      ApiJs.webhook constructEvent secret req = rejection message /\
      (forall purchased,
          StripeTs.webhook constructEvent secret req purchased = rejection message) /\
      400 <= status (response (rejection message)) < 500 /\
      mutations (rejection message) = []) /\
  (forall event,
      constructEvent (req_body req) (stripe_signature req) secret = inl event ->
      status (response (ApiJs.webhook constructEvent secret req)) <> 400 /\
      forall purchased,
        status (response (StripeTs.webhook constructEvent secret req purchased)) <> 400) /\
  (status (response (ApiJs.webhook constructEvent secret req)) <> 400 ->
   exists event,
     constructEvent (req_body req) (stripe_signature req) secret = inl event /\
     ApiJs.webhook constructEvent secret req = ApiJs.handle_event event) /\
  (forall purchased,
      status (response (StripeTs.webhook constructEvent secret req purchased)) <> 400 ->
      exists event,
        constructEvent (req_body req) (stripe_signature req) secret = inl event /\
        StripeTs.webhook constructEvent secret req purchased
        = StripeTs.handle_event event purchased).
Proof.
  unfold ApiJs.webhook, StripeTs.webhook.
  destruct (constructEvent (req_body req) (stripe_signature req) secret)
    as [event|message'].
  - split; [intros message H; discriminate H|].
    split.
    + intros event' H. injection H as <-.
      split; [apply api_handle_event_status|].
      intros purchased. apply ts_handle_event_status.
    + split; [intros _|intros purchased _]; exists event; split; reflexivity.
  - split.
    + intros message H. injection H as <-.
      repeat split; cbn; try lia.
    + split; [intros event H; discriminate H|].
      split; [intros H|intros purchased H]; exfalso; apply H; reflexivity.
Qed.

(** A request whose signature header does not match the secret. *)
Lemma X22_handlers_answer_400_when_constructEvent_throws_witness :
  ApiJs.webhook (verifyWith deckEvent) "whsec" forgedRequest
  = rejection "No signatures found matching the expected signature for payload" /\
  StripeTs.webhook (verifyWith deckEvent) "whsec" forgedRequest (Resolves tt)
  = rejection "No signatures found matching the expected signature for payload".
Proof.
  destruct (X22_handlers_answer_400_when_constructEvent_throws (verifyWith deckEvent) "whsec" forgedRequest)
    as [Hreject _].
  destruct (Hreject "No signatures found matching the expected signature for payload"
              eq_refl) as (Hapi & Hts & _).
  split; [exact Hapi|apply Hts].
Defined.

(** ** Amounts of whole cents *)

(** X13: no cent is lost on the way to Stripe.  For every amount of [k]
    whole cents from 0.00 to 1000.00, given as the JavaScript number
    [k / 100], [Math.round(amount * 100)] is exactly [k]: both
    [/create-checkout-session] routes and [/create-payout] submit [k] minor
    units, although [amount * 100] itself is often not a whole number in
    binary64; and [amount_total / 100], which the [api.js] webhook logs for a
    session of [k] minor units, is the amount asked for. *)
Theorem X13_whole_cent_amounts_are_submitted_exactly (k : Z) :
  0 <= k <= 100000 ->
  (forall userId created,
      submitted_amounts (ApiJs.create_checkout_session userId (of_cents k) created)
      = [Some k]) /\
  (forall deckId userId deckTitle created,
      submitted_amounts (StripeTs.create_checkout_session deckId userId deckTitle
                           (of_cents k) created)
      = [Some k]) /\
  (forall accountId created,
      ApiJsPayout.payout_amount
        (ApiJsPayout.payout_request (ApiJsPayout.create_payout (of_cents k) accountId created))
      = Some k) /\
  (forall md,
      amount_of (SessionObject {| session_metadata := md;
                                  amount_total := Some (of_uint63 (Uint63.of_Z k)) |})
      = of_cents k).
Proof.
  intros Hk. destruct (cent_amount_checked k Hk) as [H _].
  unfold cents_exact in H.
  destruct (Js.Math_round (of_cents k * 100)%float) as [n|] eqn:Hn; [|discriminate H].
  apply Z.eqb_eq in H. subst n.
  repeat split.
  - intros userId created. unfold ApiJs.create_checkout_session.
    destruct created; unfold submitted_amounts;
      cbn [effects flat_map app unit_amount]; rewrite Hn; reflexivity.
  - intros deckId userId deckTitle created. unfold StripeTs.create_checkout_session.
    destruct created; unfold submitted_amounts;
      cbn [effects flat_map app unit_amount]; rewrite Hn; reflexivity.
  - intros accountId created. unfold ApiJsPayout.create_payout.
    destruct created; exact Hn.
Qed.

(** 1.15, whose product with 100 is 114.99999999999999 in binary64. *)
Lemma X13_whole_cent_amounts_are_submitted_exactly_witness :
  of_cents 115 = 1.15%float /\
  (of_cents 115 * 100 <? 115)%float = true /\
  submitted_amounts (ApiJs.create_checkout_session "alice" (of_cents 115) (Resolves None))
  = [Some 115].
Proof.
  split; [reflexivity|]. split; [reflexivity|].
  apply (X13_whole_cent_amounts_are_submitted_exactly 115). lia.
Defined.

(** X14: the seller's share of whole-cent prices.  For every price of [k]
    whole cents from 0.00 to 1000.00, [/process-purchase] transfers a whole
    number [n] of minor units that is within half a unit of nine tenths of the
    price, never negative and never more than the price; when the price is a
    multiple of ten cents the transfer is exactly 90% of it. *)
Theorem X14_seller_share_of_whole_cent_prices (k : Z) :
  0 <= k <= 100000 ->
  exists n : Z,
    (forall accountId transferred,
        submitted_amounts (ApiJs.process_purchase (of_cents k) accountId transferred)
        = [Some n]) /\
    Z.abs (10 * n - 9 * k) <= 5 /\ 0 <= n <= k /\
    (k mod 10 = 0 -> 10 * n = 9 * k).
Proof.
  intros Hk. destruct (cent_amount_checked k Hk) as [_ H].
  unfold seller_share_ok in H.
  destruct (ApiJs.sellerAmount (of_cents k)) as [n|] eqn:Hn; [|discriminate H].
  apply andb_true_iff in H. destruct H as [H H4].
  apply andb_true_iff in H. destruct H as [H H3].
  apply andb_true_iff in H. destruct H as [H1 H2].
  apply Z.leb_le in H1, H2, H3.
  exists n. repeat split; try assumption.
  - intros accountId transferred. unfold ApiJs.process_purchase.
    destruct transferred; unfold submitted_amounts;
      cbn [effects flat_map app transfer_amount]; rewrite Hn; reflexivity.
  - intros Hm. apply Z.eqb_eq in Hm. rewrite Hm in H4. apply Z.eqb_eq in H4. exact H4.
Qed.

(** A price of 7.00: the transfer is 630. *)
Lemma X14_seller_share_of_whole_cent_prices_witness :
  exists n : Z,
    (forall accountId transferred,
        submitted_amounts (ApiJs.process_purchase (of_cents 700) accountId transferred)
        = [Some n]) /\
    10 * n = 9 * 700.
Proof.
  destruct (X14_seller_share_of_whole_cent_prices 700 ltac:(lia))
    as (n & H1 & _ & _ & H4).
  exists n. split; [exact H1|]. apply H4. reflexivity.
Defined.

(** ** The creator page *)

Section CreatorPage.

Import CreatorProfile.

(** A fetch either leaves the creator and the decks alone, or sets both from
    the two query results. *)
Lemma fetch_cases (creatorId : option string) (profile : Outcome (Result Creator))
    (rows : Outcome (Result (list DeckRow))) (st : State) :
  (creator (fetchCreatorData creatorId profile rows st) = creator st /\
   decks (fetchCreatorData creatorId profile rows st) = decks st /\
   forall c ds, ~ (profile = Resolves (Data c) /\ rows = Resolves (Data ds) /\
                   truthy_id creatorId <> None)) \/
  (exists id c ds,
      truthy_id creatorId = Some id /\
      profile = Resolves (Data c) /\ rows = Resolves (Data ds) /\
      fetchCreatorData creatorId profile rows st
      = setIsLoading false
          (setCreatorAndDecks c (map (withCreator c) ds)
             (issue (SelectDecks id) (issue (SelectProfile id) (setIsLoading true st))))).
Proof.
  unfold fetchCreatorData.
  destruct (truthy_id creatorId) as [id|].
  - destruct profile as [[c|e]|m].
    + destruct rows as [[ds|e]|m].
      * right. exists id, c, ds. repeat split.
      * left. repeat split. intros c' ds' (_ & H & _). discriminate H.
      * left. repeat split. intros c' ds' (_ & H & _). discriminate H.
    + left. repeat split. intros c' ds' (H & _). discriminate H.
    + left. repeat split. intros c' ds' (H & _). discriminate H.
  - left. repeat split. intros c ds (_ & _ & H). apply H. reflexivity.
Qed.

Lemma consistent_withCreator (c : Creator) (ds : list DeckRow) :
  Forall (fun d => creatorName d = username c /\ creatorAvatar d = avatar_url c /\
                   profiles d = (username c, avatar_url c))
         (map (withCreator c) ds).
Proof.
  induction ds as [|d ds IH]; [constructor|].
  constructor; [repeat split|exact IH].
Qed.

Lemma fetch_keeps_consistent (creatorId : option string)
    (profile : Outcome (Result Creator)) (rows : Outcome (Result (list DeckRow)))
    (st : State) :
  consistent st -> consistent (fetchCreatorData creatorId profile rows st).
Proof.
  intros H. destruct (fetch_cases creatorId profile rows st)
    as [(Hc & Hd & _)|(id & c & ds & _ & _ & _ & E)].
  - unfold consistent in *. rewrite Hc, Hd. exact H.
  - rewrite E. unfold consistent. cbn. apply consistent_withCreator.
Qed.

End CreatorPage.

(** X15: [fetchCreatorData] replaces the creator and the decks together or
    not at all.  They change only when the route has a creator id and both
    queries returned data; then the creator is the profile row and the decks
    are the rows in the order received, each under the creator's name and
    avatar.  When the profile query fails the decks query is not issued; when
    only the decks query fails, the profile that was found is not shown. *)
Theorem X15_creator_and_decks_are_replaced_together
    (creatorId : option string)
    (profile : Outcome (CreatorProfile.Result CreatorProfile.Creator))
    (rows : Outcome (CreatorProfile.Result (list CreatorProfile.DeckRow)))
    (st : CreatorProfile.State) :
  let st' := CreatorProfile.fetchCreatorData creatorId profile rows st in
  ((CreatorProfile.creator st' = CreatorProfile.creator st /\
    CreatorProfile.decks st' = CreatorProfile.decks st) \/
   (exists id c ds,
       CreatorProfile.truthy_id creatorId = Some id /\
       profile = Resolves (CreatorProfile.Data c) /\
       rows = Resolves (CreatorProfile.Data ds) /\
       CreatorProfile.creator st' = Some c /\
       CreatorProfile.decks st' = map (CreatorProfile.withCreator c) ds /\
       map CreatorProfile.row (CreatorProfile.decks st') = ds)) /\
  (forall id, CreatorProfile.truthy_id creatorId = Some id ->
     CreatorProfile.queries st'
     = (CreatorProfile.queries st
        ++ match profile with
           | Resolves (CreatorProfile.Data _) =>
               [CreatorProfile.SelectProfile id; CreatorProfile.SelectDecks id]
           | _ => [CreatorProfile.SelectProfile id]
           end)%list) /\
  (forall c, profile = Resolves (CreatorProfile.Data c) ->
     (forall ds, rows <> Resolves (CreatorProfile.Data ds)) ->
     CreatorProfile.creator st' = CreatorProfile.creator st).
Proof.
  cbv zeta. split; [|split].
  - destruct (fetch_cases creatorId profile rows st)
      as [(Hc & Hd & _)|(id & c & ds & Hid & Hp & Hr & E)].
    + left. split; assumption.
    + right. exists id, c, ds. rewrite E. repeat split; try assumption.
      cbn. rewrite map_map. cbn. apply map_id.
  - intros id Hid. unfold CreatorProfile.fetchCreatorData. rewrite Hid.
    destruct profile as [[c|e]|m]; [destruct rows as [[ds|e]|m]| |]; cbn;
      rewrite <- ?app_assoc; reflexivity.
  - intros c Hp Hr. subst profile. unfold CreatorProfile.fetchCreatorData.
    destruct (CreatorProfile.truthy_id creatorId); [|reflexivity].
    destruct rows as [[ds|e]|m]; [exfalso; apply (Hr ds); reflexivity| |];
      reflexivity.
Qed.

(** X16: after any sequence of fetches, successful or not, for the same or
    for different creator ids, the cards on the page belong to the creator in
    its header: with no creator there are no decks, and otherwise every deck
    carries the name and the avatar of the creator shown. *)
Theorem X16_cards_belong_to_the_creator_shown (fetches : list CreatorProfile.Fetch) :
  CreatorProfile.consistent (CreatorProfile.run fetches CreatorProfile.initialState).
Proof.
  unfold CreatorProfile.run.
  assert (H : CreatorProfile.consistent CreatorProfile.initialState) by reflexivity.
  revert H. generalize CreatorProfile.initialState.
  induction fetches as [|f fs IH]; intros st H; [exact H|].
  cbn [fold_left]. apply IH. apply fetch_keeps_consistent. exact H.
Qed.

(** X17: without a creator id in the route the page never leaves its
    spinner.  [isLoading] starts true and [fetchCreatorData] returns before
    its [try], so neither a query is issued nor the flag cleared, however
    often the effect runs. *)
Theorem X17_no_creator_id_spins_forever (fetches : list CreatorProfile.Fetch) :
  Forall (fun f => CreatorProfile.truthy_id (CreatorProfile.fetch_id f) = None) fetches ->
  CreatorProfile.run fetches CreatorProfile.initialState = CreatorProfile.initialState /\
  CreatorProfile.render (CreatorProfile.run fetches CreatorProfile.initialState)
  = CreatorProfile.Spinner.
Proof.
  intros H.
  assert (E : CreatorProfile.run fetches CreatorProfile.initialState
              = CreatorProfile.initialState).
  { unfold CreatorProfile.run. generalize CreatorProfile.initialState.
    induction H as [|f fs Hf _ IH]; intros st; [reflexivity|].
    cbn [fold_left]. unfold CreatorProfile.fetchCreatorData at 2. rewrite Hf. apply IH. }
  rewrite E. split; reflexivity.
Qed.

(** The effect run twice, with an undefined and with an empty id. *)
Lemma X17_no_creator_id_spins_forever_witness :
  CreatorProfile.render
    (CreatorProfile.run
       [{| CreatorProfile.fetch_id := None;
           CreatorProfile.fetch_profile := Rejects None;
           CreatorProfile.fetch_rows := Rejects None |};
        {| CreatorProfile.fetch_id := Some "";
           CreatorProfile.fetch_profile := Rejects None;
           CreatorProfile.fetch_rows := Rejects None |}]
       CreatorProfile.initialState)
  = CreatorProfile.Spinner.
Proof.
  apply X17_no_creator_id_spins_forever.
  repeat constructor.
Defined.

(** X18: what the page shows after a fetch for a creator id.  The spinner is
    gone, whatever the outcome.  If the fetch failed, the page shows what the
    state held before: "Creator not found" when there was no creator, and
    otherwise still the previous creator's page.  If it succeeded, the page
    shows the creator found, the number of rows received, and the grid of
    these rows, or the note "No decks created yet" when there are none. *)
Theorem X18_page_after_a_fetch
    (creatorId : option string) (id : string)
    (profile : Outcome (CreatorProfile.Result CreatorProfile.Creator))
    (rows : Outcome (CreatorProfile.Result (list CreatorProfile.DeckRow)))
    (st : CreatorProfile.State) :
  CreatorProfile.truthy_id creatorId = Some id ->
  let st' := CreatorProfile.fetchCreatorData creatorId profile rows st in
  CreatorProfile.isLoading st' = false /\
  match profile, rows with
  | Resolves (CreatorProfile.Data c), Resolves (CreatorProfile.Data ds) =>
      CreatorProfile.render st'
      = CreatorProfile.ProfilePage (CreatorProfile.username c)
          (CreatorProfile.avatar_url c) (List.length ds)
          match ds with
          | [] => None
          | _ => Some (map (CreatorProfile.withCreator c) ds)
          end
  | _, _ =>
      CreatorProfile.render st'
      = CreatorProfile.render (CreatorProfile.setIsLoading false st)
  end.
Proof.
  intros Hid. cbv zeta. unfold CreatorProfile.fetchCreatorData. rewrite Hid.
  destruct profile as [[c|e]|m]; [destruct rows as [[ds|e]|m]| |];
    split; try reflexivity.
  unfold CreatorProfile.render. cbn. rewrite length_map.
  destruct ds; reflexivity.
Qed.

(** The first fetch finds the profile but the decks query fails. *)
Lemma X18_page_after_a_fetch_witness :
  CreatorProfile.render
    (CreatorProfile.fetchCreatorData (Some "c1")
       (Resolves (CreatorProfile.Data
                    {| CreatorProfile.creator_id := "c1";
                       CreatorProfile.username := "ada";
                       CreatorProfile.avatar_url := None |}))
       (Resolves (CreatorProfile.Failed "timeout"))
       CreatorProfile.initialState)
  = CreatorProfile.CreatorNotFound.
Proof.
  destruct (X18_page_after_a_fetch (Some "c1") "c1"
              (Resolves (CreatorProfile.Data
                    {| CreatorProfile.creator_id := "c1";
                       CreatorProfile.username := "ada";
                       CreatorProfile.avatar_url := None |}))
              (Resolves (CreatorProfile.Failed "timeout"))
              CreatorProfile.initialState eq_refl) as [_ H].
  exact H.
Defined.

(** ** The flashcard loaders *)

Section Loaders.

Lemma buy_run_snoc (ops : list PreviewOp) (op : PreviewOp) (p : Preview) :
  BuyDeckPreview.run (ops ++ [op]) p = BuyDeckPreview.step (BuyDeckPreview.run ops p) op.
Proof. unfold BuyDeckPreview.run. rewrite fold_left_app. reflexivity. Qed.

Lemma purchased_run_snoc (ops : list PreviewOp) (op : PreviewOp) (p : Preview) :
  PurchasedDeckDialog.run (ops ++ [op]) p
  = PurchasedDeckDialog.step (PurchasedDeckDialog.run ops p) op.
Proof. unfold PurchasedDeckDialog.run. rewrite fold_left_app. reflexivity. Qed.

Lemma truthy_creatorid_not_empty (deck : DeckRef) (c : string) :
  truthy_creatorid deck = Some c -> creatorid deck = Some c /\ c <> "".
Proof.
  unfold truthy_creatorid. destruct (creatorid deck) as [c'|]; [|discriminate].
  destruct (String.eqb_spec c' ""); [discriminate|].
  intros H. injection H as <-. split; [reflexivity|assumption].
Qed.

Lemma rejections_snoc (ops : list PreviewOp) (op : PreviewOp) :
  rejections (ops ++ [op])
  = (rejections ops + match op with Settles (Rejects _) => 1 | _ => 0 end)%nat.
Proof.
  unfold rejections. rewrite filter_app, length_app.
  destruct op as [tab|isOpen deck|[cards|m]]; reflexivity.
Qed.

End Loaders.

(** X19: the flashcard loader of [BuyDeckDialog.tsx], over any run of tab
    changes, effect runs and settled fetches.  The loading flag is never left
    on without a fetch in flight; a fetch is issued only with a creator id
    that is present and not empty, and never while the dialog is closed or on
    another tab than "preview"; and the error toasts never outnumber the
    fetches that rejected. *)
Theorem X19_buy_dialog_loader (ops : list PreviewOp) :
  let p := BuyDeckPreview.run ops initialPreview in
  (inFlight p = 0%nat -> isLoadingCards p = false) /\
  Forall (fun c => snd c <> "") (getFlashcards p) /\
  (List.length (preview_toasts p) <= rejections ops)%nat /\
  (forall deck, BuyDeckPreview.effect false deck p = p) /\
  (selectedTab p <> "preview" -> forall isOpen deck, BuyDeckPreview.effect isOpen deck p = p).
Proof.
  cbv zeta. split; [|split; [|split; [|split]]].
  - induction ops as [|op ops IH] using rev_ind; [reflexivity|].
    rewrite buy_run_snoc. set (p := BuyDeckPreview.run ops initialPreview) in *.
    destruct op as [tab|isOpen deck|o]; cbn [BuyDeckPreview.step].
    + exact IH.
    + unfold BuyDeckPreview.effect.
      destruct (isOpen && String.eqb (selectedTab p) "preview"); [|exact IH].
      destruct (String.eqb (selectedTab p) "preview"); [|exact IH].
      destruct (truthy_creatorid deck); [discriminate|exact IH].
    + destruct (inFlight p) eqn:Hn; [rewrite Hn; exact IH|].
      destruct o; reflexivity.
  - induction ops as [|op ops IH] using rev_ind; [constructor|].
    rewrite buy_run_snoc. set (p := BuyDeckPreview.run ops initialPreview) in *.
    destruct op as [tab|isOpen deck|o]; cbn [BuyDeckPreview.step].
    + exact IH.
    + unfold BuyDeckPreview.effect.
      destruct (isOpen && String.eqb (selectedTab p) "preview"); [|exact IH].
      destruct (String.eqb (selectedTab p) "preview"); [|exact IH].
      destruct (truthy_creatorid deck) as [c|] eqn:Hc; [|exact IH].
      cbn. apply Forall_app. split; [exact IH|].
      constructor; [|constructor]. apply (truthy_creatorid_not_empty deck c Hc).
    + destruct (inFlight p); [exact IH|]. destruct o; exact IH.
  - induction ops as [|op ops IH] using rev_ind; [cbn; lia|].
    rewrite buy_run_snoc, rejections_snoc.
    set (p := BuyDeckPreview.run ops initialPreview) in *.
    destruct op as [tab|isOpen deck|o]; cbn [BuyDeckPreview.step].
    + cbn. lia.
    + unfold BuyDeckPreview.effect.
      destruct (isOpen && String.eqb (selectedTab p) "preview"); [|lia].
      destruct (String.eqb (selectedTab p) "preview"); [|lia].
      destruct (truthy_creatorid deck); [cbn; lia|lia].
    + destruct (inFlight p); [destruct o; lia|].
      destruct o; cbn; [lia|]. rewrite length_app. cbn. lia.
  - intros deck. reflexivity.
  - intros Ht isOpen deck. unfold BuyDeckPreview.effect.
    destruct (String.eqb_spec (selectedTab (BuyDeckPreview.run ops initialPreview))
                "preview"); [contradiction|].
    rewrite andb_false_r. reflexivity.
Qed.

(** X20: the flashcard loader of [PurchasedDeckDialog], over any run.  The
    loading flag is never left on without a fetch in flight, a fetch is issued
    only with a creator id that is present and not empty, and no toast is ever
    shown: a failed load is only logged.  Unlike the loader of
    [BuyDeckDialog.tsx], its effect does not look at [isOpen]: on the
    "flashcards" tab it fetches for a closed dialog as for an open one. *)
Theorem X20_purchased_dialog_loader (ops : list PreviewOp) :
  let p := PurchasedDeckDialog.run ops initialPreview in
  (inFlight p = 0%nat -> isLoadingCards p = false) /\
  Forall (fun c => snd c <> "") (getFlashcards p) /\
  preview_toasts p = [] /\
  (forall isOpen deck,
      PurchasedDeckDialog.effect isOpen deck p = PurchasedDeckDialog.effect true deck p) /\
  (forall deck c,
      selectedTab p = "flashcards" -> truthy_creatorid deck = Some c ->
      getFlashcards (PurchasedDeckDialog.effect false deck p)
      = (getFlashcards p ++ [(ref_id deck, c)])%list).
Proof.
  cbv zeta. split; [|split; [|split; [|split]]].
  - induction ops as [|op ops IH] using rev_ind; [reflexivity|].
    rewrite purchased_run_snoc.
    set (p := PurchasedDeckDialog.run ops initialPreview) in *.
    destruct op as [tab|isOpen deck|o]; cbn [PurchasedDeckDialog.step].
    + exact IH.
    + unfold PurchasedDeckDialog.effect.
      destruct (String.eqb (selectedTab p) "flashcards"); [|exact IH].
      destruct (truthy_creatorid deck); [discriminate|exact IH].
    + destruct (inFlight p) eqn:Hn; [rewrite Hn; exact IH|].
      destruct o; reflexivity.
  - induction ops as [|op ops IH] using rev_ind; [constructor|].
    rewrite purchased_run_snoc.
    set (p := PurchasedDeckDialog.run ops initialPreview) in *.
    destruct op as [tab|isOpen deck|o]; cbn [PurchasedDeckDialog.step].
    + exact IH.
    + unfold PurchasedDeckDialog.effect.
      destruct (String.eqb (selectedTab p) "flashcards"); [|exact IH].
      destruct (truthy_creatorid deck) as [c|] eqn:Hc; [|exact IH].
      cbn. apply Forall_app. split; [exact IH|].
      constructor; [|constructor]. apply (truthy_creatorid_not_empty deck c Hc).
    + destruct (inFlight p); [exact IH|]. destruct o; exact IH.
  - induction ops as [|op ops IH] using rev_ind; [reflexivity|].
    rewrite purchased_run_snoc.
    set (p := PurchasedDeckDialog.run ops initialPreview) in *.
    destruct op as [tab|isOpen deck|o]; cbn [PurchasedDeckDialog.step].
    + exact IH.
    + unfold PurchasedDeckDialog.effect.
      destruct (String.eqb (selectedTab p) "flashcards"); [|exact IH].
      destruct (truthy_creatorid deck); exact IH.
    + destruct (inFlight p); [exact IH|]. destruct o; exact IH.
  - intros isOpen deck. reflexivity.
  - intros deck c Ht Hc. unfold PurchasedDeckDialog.effect. rewrite Ht, Hc. reflexivity.
Qed.

(** ** The end of a recharge *)

(** X21: [handleRecharge], once [createCreditCheckoutSession] has settled,
    ends in exactly one of two ways.  If the call resolved with a non-empty
    URL the page is redirected to it and no toast is shown.  Otherwise (the
    URL is null or empty, or the call rejected) the page stays where it is and
    one destructive "Recharge failed" toast is shown, with the message of the
    error, or "Failed to create checkout session" for a missing URL, or
    "Failed to recharge balance" when what was thrown is not an [Error].  In
    neither case does the balance, [isPurchasing] or the list of calls
    change. *)
Theorem X21_recharge_ends_in_redirect_or_one_toast
    (o : Outcome (option string)) (d : Dialog) :
  let d' := BuyDeckDialogRecharge.handleRecharge_resume o d in
  userBalance d' = userBalance d /\ isPurchasing d' = isPurchasing d /\
  calls d' = calls d /\ onClose_calls d' = onClose_calls d /\
  ((exists url, o = Resolves (Some url) /\ url <> "" /\
                location_href d' = Some url /\ toasts d' = toasts d) \/
   (location_href d' = location_href d /\
    (forall url, o = Resolves (Some url) -> url = "") /\
    toasts d'
    = (toasts d
       ++ [{| title := "Recharge failed";
              description := Text match o with
                                  | Resolves _ => "Failed to create checkout session"
                                  | Rejects (Some m) => m
                                  | Rejects None => "Failed to recharge balance"
                                  end;
              variant := Destructive |}])%list)).
Proof.
  cbv zeta. unfold BuyDeckDialogRecharge.handleRecharge_resume,
    BuyDeckDialogRecharge.truthy_url.
  destruct o as [[url|]|[m|]].
  - destruct (String.eqb_spec url "") as [->|Hne].
    + repeat split. right. repeat split. intros url H. injection H as <-. reflexivity.
    + repeat split. left. exists url. repeat split. exact Hne.
  - repeat split. right. repeat split. intros url H. discriminate H.
  - repeat split. right. repeat split. intros url H. discriminate H.
  - repeat split. right. repeat split. intros url H. discriminate H.
Qed.
